(** * Flash-sintering control engine: a shallow embedding and its properties

    The Python sources embedded here are
    - [config/settings.py]                     (module [Settings]),
    - [controllers/daq_keithley_controller.py] (module [DAQController]),
    - [controllers/timer_manager.py]           (module [TimerManager]),
    - [controllers/device_controller.py]       (module [DeviceController]),
    - [controllers/main_controller.py]         (module [MainController]),
    - [utils/helpers.py]                       (module [Helpers]).

    Python [float]s are IEEE binary64 numbers, and so are Rocq's primitive
    floats: arithmetic and comparisons are the machine's, NaN included.
    Python methods mutate their objects, call the instruments, read the
    clock and raise exceptions; they become computations in the monad [M],
    which threads one [World] (every object's attributes plus what reached
    the instruments) and answers either [Ok] or [Raise].  What the outside
    answers (clock readings, samples, driver faults) is an oracle [Env]. *)

From Stdlib Require Import Floats Bool List.
From stdpp Require Import base option gmap strings.
From coqutil Require Import Datatypes.RecordSettersUsingExistingGetters.
Import ListNotations.

Set Warnings "-inexact-float".

(** ** Python values *)

Module Py.

(** Comparison operators on floats, written as Python writes them. *)
Definition le (a b : float) : bool := PrimFloat.leb a b.
Definition lt (a b : float) : bool := PrimFloat.ltb a b.
Definition ge (a b : float) : bool := PrimFloat.leb b a.
Definition gt (a b : float) : bool := PrimFloat.ltb b a.

(** [bool(x)] of a number: everything but zero is true. *)
Definition truthy (x : float) : bool := negb (PrimFloat.eqb x 0).

(** [bool(x)] of a value that is a number or [None]. *)
Definition truthy_opt (x : option float) : bool :=
  match x with
  | Some v => truthy v
  | None => false
  end.

(** [max(0, x)]: Python keeps the first argument unless the second is
    strictly greater. *)
Definition max0 (x : float) : float := if gt x 0 then x else 0%float.

(** Exceptions the embedded code raises or receives from a driver. *)
Inductive exn :=
| RuntimeError
| ValueError
| TypeError
| ZeroDivisionError
| KeyError
| DaqError          (* raised by the nidaqmx driver *)
| VisaIOError.      (* raised by the pyvisa driver *)

Inductive result (A : Type) :=
| Ok (a : A)
| Raise (e : exn).
Arguments Ok {A} a.
Arguments Raise {A} e.

Definition is_ok {A} (r : result A) : bool :=
  match r with
  | Ok _ => true
  | Raise _ => false
  end.

End Py.
Export Py.

(** ** config/settings.py *)

Module Settings.

Definition VOLTAGE_SCALE_OUTPUT : float := 60%float.
Definition VOLTAGE_SCALE_INPUT : float := 60%float.
Definition CURRENT_SCALE : float := 0.4%float.

(** [STAGES]: the stage numbers. *)
Inductive Stage := DWELL | INCUBATION | FLASH | HOLD | SHUTDOWN.

Definition STAGES (s : Stage) : nat :=
  match s with
  | DWELL => 0
  | INCUBATION => 1
  | FLASH => 2
  | HOLD => 3
  | SHUTDOWN => 4
  end.

(** The key of [STAGES] a stage number comes from. *)
Definition stage_name (s : Stage) : string :=
  match s with
  | DWELL => "DWELL"
  | INCUBATION => "INCUBATION"
  | FLASH => "FLASH"
  | HOLD => "HOLD"
  | SHUTDOWN => "SHUTDOWN"
  end.

(** A constant dictionary, in the order it is written. *)
Fixpoint dict_get {V} (d : list (string * V)) (k : string) : option V :=
  match d with
  | [] => None
  | (k', v) :: d' => if String.eqb k k' then Some v else dict_get d' k
  end.

Definition TIMER_PERIODS : list (string * float) :=
  [ ("control", 0.1); ("temperature", 1.0);
    ("data_standard", 0.1); ("data_flash", 0.01);
    ("display_standard", 0.5); ("display_flash", 0.1);
    ("save_image_standard", 1.0); ("save_image_flash", 0.1);
    ("save_image_extended", 0.05);
    ("show_image_standard", 1.0); ("show_image_flash", 0.1);
    ("show_image_extended", 0.05) ]%float.

Definition standard_config : list (string * string) :=
  [ ("data", "data_standard"); ("display", "display_standard");
    ("save_image", "save_image_standard");
    ("show_image", "show_image_standard") ].

Definition flash_config : list (string * string) :=
  [ ("data", "data_flash"); ("display", "display_flash");
    ("save_image", "save_image_flash"); ("show_image", "show_image_flash") ].

Definition STAGE_TIMER_CONFIGS : list (string * list (string * string)) :=
  [ ("DWELL", standard_config);
    ("INCUBATION", standard_config);
    ("FLASH", flash_config);
    ("HOLD", flash_config);
    ("HOLD_EXTENDED",
      [ ("data", "data_flash"); ("display", "display_flash");
        ("save_image", "save_image_extended");
        ("show_image", "show_image_extended") ]) ].

End Settings.
Export Settings.

(** ** The objects' attributes *)

(** Power-supply regulation mode: the strings ["CV"] and ["CC"]. *)
Inductive Mode := CV | CC.

Global Instance Mode_eq_dec : EqDecision Mode.
Proof. solve_decision. Defined.

Global Instance Stage_eq_dec : EqDecision Stage.
Proof. solve_decision. Defined.

(** The bound methods [MainController.setup_timers] registers. *)
Inductive callback :=
| Cb_control        (* self.control_timer_callback *)
| Cb_data           (* self.data_timer_callback *)
| Cb_display        (* self.display_timer_callback *)
| Cb_temperature.   (* self.temperature_timer_callback *)

(** A [threading.Thread] handle. *)
Record thread := { is_alive : bool }.

(** Attributes of a [TimerManager]. *)
Module Timers.
Record t := {
  timers : gmap string float;
  running : bool;
  threads : gmap string (option thread);
  callbacks : gmap string callback
}.
End Timers.

(** Attributes of a [DAQController]: which handles [initialize_devices]
    obtained ([None] in Python is [false] here). *)
Module Daq.
Record t := {
  ao_task : bool;
  keithley : bool
}.
End Daq.

(** Attributes of a [DeviceController]. *)
Module Device.
Record t := {
  is_running : bool;
  keithley : bool;
  current_stage : Stage;
  sub_stage : nat;
  start_time : float;
  flash_start_time : option float;
  hold_start_time : float;
  stage_2_time : float;
  temperature_reached : bool;
  power_supply_mode : Mode;
  cv_cc_transition_time : option float;
  voltage_before_cc : option float;
  current_limit_reached : bool;
  last_voltage : float;
  last_current : float;
  last_temperature : float;
  voltage_limit : float;
  current_limit : float;
  hold_time_limit : float;
  hold_elapsed_time : float;
  experiment_stopped_by_hold_time : bool;
  (* attributes created on first use; [None] until then ([hasattr]) *)
  last_flash_log_time : option float;
  last_hold_log_time : option float;
  (* [hasattr(self, 'timer_manager')] *)
  has_timer_manager : bool
}.
End Device.

(** Attributes of a [MainController]: the experiment parameters. *)
Module Main.
Record t := {
  dwell_time : float;
  hold_current : float;
  current_limit : float;
  target_temperature : option float;
  hold_time : float
}.
End Main.

(** A source command the device controller writes to the source-meter
    (the queries and the configuration of the measuring path belong to
    the read oracle). *)
Inductive KeithleyCmd :=
| SOUR_VOLT (volts : float)
| SOUR_CURR (amps : float)
| CURR (amps : float).

(** The [info], [warning] and [error] lines of the loggers, and what the
    timer loop prints; consecutive lines of one event are one entry, and
    [debug] lines are left out. *)
Inductive LogMsg :=
| DaqErrorSettingOutputs (e : exn)
| VoltageScalingMismatch
| CurrentScalingMismatch
| ErrorSettingOutputs (e : exn)
| ErrorVoltageMeasurement
| KeithleyNotAvailable
| ErrorReadingKeithleyCurrent
| ErrorGettingMeasurements (e : exn)
| StartingProcess
| ProcessStarted
| ErrorStartingProcess (e : exn)
| StoppingProcess
| ErrorStoppingProcess (e : exn)
| ResetCvCcTracking
| LimitsSet
| LimitsApplied
| KeithleyLimitApplied
| ErrorApplyingLimits (e : exn)
| CvToCcTransitionDetected
| CcToCvTransitionDetected
| TargetTemperatureReached
| EnteringIncubation
| EnteringFlashByTransition
| EnteringFlashByThreshold
| FlashStageProgress
| EnteringHold
| FlashStartTimeFallback
| HoldStageProgress
| HoldTimeLimitReached
| EnteringHoldSubStage
| ExtendedAcquisitionComplete
| TimerCallbackError (name : string) (e : exn).

(** ** The world and the oracle *)

Record World := {
  (* the objects *)
  daq_controller : Daq.t;
  device_controller : Device.t;
  timer_manager : Timers.t;
  main_controller : Main.t;
  (* what reached the instruments, latest first *)
  ao_written : list (float * float);
  keithley_written : list KeithleyCmd;
  (* what was logged and slept, latest first *)
  logged : list LogMsg;
  slept : list float;
  (* how many answers of each oracle were consumed *)
  clock_reads : nat;
  ao_writes : nat;
  keithley_writes : nat;
  daq_reads : nat;
  keithley_reads : nat;
  connection_checks : nat
}.

Record Env := {
  (* module-level flags set at import *)
  NIDAQMX_AVAILABLE : bool;
  PYVISA_AVAILABLE : bool;
  (* [time.time()], call after call *)
  clock : nat -> float;
  (* whether the n-th [ao_task.write] raises *)
  ao_write_fails : nat -> bool;
  (* whether the n-th [keithley.write] raises *)
  keithley_write_fails : nat -> bool;
  (* the two samples of the n-th DAQ voltage read, [None] when it raises *)
  daq_samples : nat -> option (float * float);
  (* the n-th source-meter reading in microamperes, [None] when the status
     check, the reconfiguration or the read fails *)
  keithley_current_ua : nat -> option float;
  (* the n-th answer of [check_device_connections]: DAQ, Keithley *)
  connections : nat -> bool * bool
}.

(** Updating an attribute computes. *)
Arguments const {E} newValue _ /.
Arguments set {R E} getter {Setter} fieldUpdater r /.

(** ** The monad of methods *)

(** A method: given the oracle and the world it answers or raises, and
    leaves a world (what it changed before raising stays changed). *)
Definition M (A : Type) : Type := Env -> World -> result A * World.

Definition ret {A} (a : A) : M A := fun _ w => (Ok a, w).

Definition raise {A} (e : exn) : M A := fun _ w => (Raise e, w).

Definition bind {A B} (m : M A) (k : A -> M B) : M B :=
  fun env w =>
    match m env w with
    | (Ok a, w') => k a env w'
    | (Raise e, w') => (Raise e, w')
    end.

(** [try: m  except Exception as e: h e] *)
Definition try_except {A} (m : M A) (h : exn -> M A) : M A :=
  fun env w =>
    match m env w with
    | (Ok a, w') => (Ok a, w')
    | (Raise e, w') => h e env w'
    end.

(** Reading the world and the oracle, and changing the world. *)
Definition get : M World := fun _ w => (Ok w, w).
Definition ask : M Env := fun env w => (Ok env, w).
Definition modify (f : World -> World) : M unit := fun _ w => (Ok tt, f w).

Global Instance M_ret : MRet M := @ret.
Global Instance M_bind : MBind M := fun A B k m => bind m k.

(** [if c: m] *)
Definition when (c : bool) (m : M unit) : M unit := if c then m else ret tt.

(** [self] of the device controller. *)
Definition self : M Device.t := w ← get; ret (device_controller w).

(** [time.time()] *)
Definition time_time : M float :=
  fun env w => (Ok (clock env (clock_reads w)), w <| clock_reads ::= S |>).

(** [time.sleep(d)] *)
Definition time_sleep (d : float) : M unit :=
  modify (fun w => w <| slept ::= cons d |>).

(** [self.logger.info(...)], [.warning(...)], [.error(...)], [print(...)] *)
Definition log (m : LogMsg) : M unit :=
  modify (fun w => w <| logged ::= cons m |>).

(** [a / b] on Python floats: a zero divisor raises. *)
Definition py_div (a b : float) : M float :=
  if PrimFloat.eqb b 0 then raise ZeroDivisionError else ret (a / b)%float.

(** Formatting with [:.2f] and the like: [None] has no such format. *)
Definition py_format (x : option float) : M unit :=
  match x with
  | Some _ => ret tt
  | None => raise TypeError
  end.

(** [for x in xs: body x] *)
Fixpoint for_each {A} (xs : list A) (body : A -> M unit) : M unit :=
  match xs with
  | [] => ret tt
  | x :: xs' => body x;; for_each xs' body
  end.

(** ** controllers/daq_keithley_controller.py *)

Module DAQController.

(** [self.ao_task.write([a, b])]: the driver may raise; what it accepted
    is on the analog outputs. *)
Definition ao_task_write (a b : float) : M unit :=
  fun env w =>
    let w' := w <| ao_writes ::= S |> in
    if ao_write_fails env (ao_writes w)
    then (Raise DaqError, w')
    else (Ok tt, w' <| ao_written ::= cons (a, b) |>).

(** [DAQController.set_outputs], lines 125-162. *)
Definition set_outputs (voltage current : float) : M unit :=
  env ← ask;
  w ← get;
  if negb (NIDAQMX_AVAILABLE env) || negb (Daq.ao_task (daq_controller w))
  then raise RuntimeError
  else
    try_except
      ((* Validate input ranges *)
       if negb (le 0 voltage && le voltage 300) then raise ValueError
       else if negb (le 0 current && le current 2000) then raise ValueError
       else
         (* Scale the outputs using correct scaling factors *)
         let voltage_scaled := (voltage / VOLTAGE_SCALE_OUTPUT)%float in
         let current_scaled := (current / (CURRENT_SCALE * 1000))%float in
         let matlab_voltage_scaled := (voltage * 5 / 300)%float in
         let matlab_current_scaled := (current * 5 / 2000)%float in
         ao_task_write voltage_scaled current_scaled;;
         when (gt (abs (voltage_scaled - matlab_voltage_scaled)) 0.001)
           (log VoltageScalingMismatch);;
         when (gt (abs (current_scaled - matlab_current_scaled)) 0.001)
           (log CurrentScalingMismatch))
      (fun e => log (DaqErrorSettingOutputs e);; raise e).

End DAQController.

(** ** controllers/timer_manager.py *)

Module TimerManager.
Import Timers.

(** [self] of the timer manager, and an assignment to its attributes. *)
Definition this : M Timers.t := w ← get; ret (timer_manager w).

Definition assign (f : Timers.t -> Timers.t) : M unit :=
  modify (fun w => w <| timer_manager ::= f |>).

(** [__init__], lines 9-14. *)
Definition __init__ : Timers.t :=
  {| timers := ∅; running := false; threads := ∅; callbacks := ∅ |}.

(** [add_timer], lines 16-25. *)
Definition add_timer (name : string) (period : float) (cb : callback)
  : M unit :=
  assign (fun t => t <| timers ::= <[name := period]> |>);;
  assign (fun t => t <| callbacks ::= <[name := cb]> |>);;
  assign (fun t => t <| threads ::= <[name := None]> |>).

(** [threading.Thread(target=self._timer_loop, ...)] then [.start()]: the
    handle of a thread that runs; the loop it runs is [_timer_loop]. *)
Definition spawn (name : string) : M unit :=
  assign (fun t =>
    t <| threads ::= <[name := Some {| is_alive := true |}]> |>).

(** [self.threads[name].join()] returns once the thread has ended. *)
Definition join (name : string) : M unit :=
  assign (fun t =>
    t <| threads ::= <[name := Some {| is_alive := false |}]> |>).

(** [start_timer], lines 27-41. *)
Definition start_timer (name : string) : M unit :=
  t ← this;
  if negb (bool_decide (is_Some (timers t !! name))) then raise ValueError
  else
    match threads t !! name with
    | None => raise KeyError
    | Some None => spawn name
    | Some (Some th) => when (negb (is_alive th)) (spawn name)
    end.

(** [stop_timer], lines 43-51. *)
Definition stop_timer (name : string) : M unit :=
  t ← this;
  match threads t !! name with
  | Some (Some _) =>
      assign (fun t => t <| running := false |>);;
      join name;;
      assign (fun t => t <| threads ::= <[name := None]> |>)
  | _ => ret tt
  end.

(** The keys of a dictionary; [start_timer] and the body of [stop_all]
    touch only the entry of their own name, so the order of the keys
    does not show in the result. *)
Definition keys {V} (d : gmap string V) : list string := (map_to_list d).*1.

(** [start_all], lines 53-57. *)
Definition start_all : M unit :=
  assign (fun t => t <| running := true |>);;
  t ← this;
  for_each (keys (timers t)) start_timer.

(** [stop_all], lines 59-65. *)
Definition stop_all : M unit :=
  assign (fun t => t <| running := false |>);;
  t ← this;
  for_each (keys (threads t)) (fun name =>
    t ← this;
    match threads t !! name with
    | Some (Some _) =>
        join name;;
        assign (fun t => t <| threads ::= <[name := None]> |>)
    | _ => ret tt
    end).

(** One turn of the [while self.running] loop of [_timer_loop], lines
    73-87; [call] runs a registered callback. *)
Definition _timer_loop_body (call : callback -> M unit) (name : string)
  : M unit :=
  start_time ← time_time;
  (* Execute callback *)
  try_except
    (t ← this;
     match callbacks t !! name with
     | Some cb => call cb
     | None => raise KeyError
     end)
    (fun e => log (TimerCallbackError name e));;
  (* Calculate sleep time *)
  now ← time_time;
  let elapsed := (now - start_time)%float in
  t ← this;
  match timers t !! name with
  | None => raise KeyError
  | Some period =>
      let sleep_time := max0 (period - elapsed) in
      (* Sleep until next tick *)
      when (gt sleep_time 0) (time_sleep sleep_time)
  end.

(** [_timer_loop], lines 67-87.  The loop has no bound of its own: the
    model runs at most [fuel] turns and answers whether the loop ended
    ([true]: [self.running] was found false). *)
Fixpoint _timer_loop (call : callback -> M unit) (fuel : nat)
    (name : string) : M bool :=
  t ← this;
  if negb (running t) then ret true
  else
    match fuel with
    | 0 => ret false
    | S fuel' =>
        _timer_loop_body call name;;
        _timer_loop call fuel' name
    end.

(** [update_period], lines 89-96. *)
Definition update_period (name : string) (new_period : float) : M unit :=
  t ← this;
  when (bool_decide (is_Some (timers t !! name)))
    (assign (fun t => t <| timers ::= <[name := new_period]> |>)).

End TimerManager.

(** ** controllers/device_controller.py *)

(** The dictionary [get_power_supply_status] returns, key by key. *)
Module Status.
Record t := {
  mode : Mode;
  cv_cc_transition_time : option float;
  voltage_before_cc : option float;
  current_limit_reached : bool;
  time_in_cc_mode : option float
}.
End Status.

Module DeviceController.
Import Device.

(** An assignment to attributes of [self]. *)
Definition assign (f : Device.t -> Device.t) : M unit :=
  modify (fun w => w <| device_controller ::= f |>).

(** [__init__], lines 38-82: the attributes at construction; [keithley]
    says whether [initialize_devices] obtained the source-meter. *)
Definition __init__ (keithley : bool) : Device.t :=
  {| is_running := false;
     Device.keithley := keithley;
     (* Experiment state *)
     current_stage := DWELL;
     sub_stage := 0;
     start_time := 0;
     flash_start_time := Some 0%float;
     hold_start_time := 0;
     stage_2_time := 0;
     temperature_reached := false;
     (* Power supply CV/CC mode tracking *)
     power_supply_mode := CV;
     cv_cc_transition_time := None;
     voltage_before_cc := None;
     current_limit_reached := false;
     (* Last values for continuity *)
     last_voltage := 0;
     last_current := 0;
     last_temperature := 0;
     voltage_limit := 0;
     Device.current_limit := 0;
     (* Hold time control *)
     hold_time_limit := 60;
     hold_elapsed_time := 0;
     experiment_stopped_by_hold_time := false;
     last_flash_log_time := None;
     last_hold_log_time := None;
     has_timer_manager := false |}.

(** [self.keithley.write(cmd)] *)
Definition keithley_write (cmd : KeithleyCmd) : M unit :=
  fun env w =>
    let w' := w <| keithley_writes ::= S |> in
    if keithley_write_fails env (keithley_writes w)
    then (Raise VisaIOError, w')
    else (Ok tt, w' <| keithley_written ::= cons cmd |>).

(** [check_device_connections], lines 84-135: whether the DAQ and the
    Keithley answer; a driver that is not importable finds nothing. *)
Definition check_device_connections : M (bool * bool) :=
  fun env w =>
    let '(daq, keithley) := connections env (connection_checks w) in
    (Ok (NIDAQMX_AVAILABLE env && daq, PYVISA_AVAILABLE env && keithley),
     w <| connection_checks ::= S |>).

(** [read_sample_voltage_improved], lines 316-356. *)
Definition read_sample_voltage_improved (daq_range actual_range : float)
  : M float :=
  fun env w =>
    let w' := w <| daq_reads ::= S |> in
    match daq_samples env (daq_reads w) with
    | Some (a, b) =>
        (* voltage_raw = [a, b] *)
        let voltage_mean := ((0 + a + b) / 2)%float in
        (* Apply scaling *)
        (Ok ((actual_range / daq_range) * voltage_mean)%float, w')
    | None =>
        (log ErrorVoltageMeasurement;;
         ret 0%float (* Return default value instead of raising *)) env w'
    end.

(** [read_keithley_current_improved], lines 358-390: the current in
    milliamperes or [None] (the measurement time it also returns is
    dropped by its only caller). *)
Definition read_keithley_current_improved : M (option float) :=
  try_except
    (env ← ask;
     d ← self;
     if negb (PYVISA_AVAILABLE env) || negb (Device.keithley d)
     then log KeithleyNotAvailable;; ret None
     else
       fun env w =>
         let w' := w <| keithley_reads ::= S |> in
         match keithley_current_ua env (keithley_reads w) with
         | Some current_ua =>
             (Ok (Some (current_ua / 1000)%float), w') (* µA to mA *)
         | None => (Raise RuntimeError, w')
         end)
    (fun e => log ErrorReadingKeithleyCurrent;; ret None).

(** [get_measurements], lines 295-314: voltage, current, temperature. *)
Definition get_measurements
  : M (option float * option float * option float) :=
  try_except
    (voltage ← read_sample_voltage_improved 5 300;
     current ← read_keithley_current_improved;
     (* Read temperature (not implemented yet) *)
     d ← self;
     ret (Some voltage, current, Some (last_temperature d)))
    (fun e => log (ErrorGettingMeasurements e);; ret (None, None, None)).

(** [set_outputs], lines 392-411. *)
Definition set_outputs (voltage current : float) : M unit :=
  try_except
    (DAQController.set_outputs voltage current;;
     (* Set Keithley outputs *)
     env ← ask;
     d ← self;
     when (PYVISA_AVAILABLE env && Device.keithley d)
       (keithley_write (SOUR_VOLT voltage);;
        keithley_write (SOUR_CURR (current / 1000))))
    (fun e => log (ErrorSettingOutputs e);; raise e).

(** [reset_cv_cc_tracking], lines 805-811. *)
Definition reset_cv_cc_tracking : M unit :=
  assign (fun d => d <| power_supply_mode := CV |>);;
  assign (fun d => d <| cv_cc_transition_time := None |>);;
  assign (fun d => d <| voltage_before_cc := None |>);;
  assign (fun d => d <| current_limit_reached := false |>);;
  log ResetCvCcTracking.

(** [set_voltage_current_limits], lines 668-689. *)
Definition set_voltage_current_limits (voltage current : float) : M bool :=
  try_except
    ((* Store limits without applying them *)
     assign (fun d => d <| voltage_limit := voltage |>);;
     assign (fun d => d <| Device.current_limit := current |>);;
     log LimitsSet;;
     (* Update last values for tracking *)
     assign (fun d => d <| last_voltage := voltage |>);;
     assign (fun d => d <| last_current := current |>);;
     ret true)
    (fun e => ret false).

(** [apply_voltage_current_limits], lines 691-715 (both limits are
    attributes since [__init__], so the [hasattr] test passes). *)
Definition apply_voltage_current_limits : M bool :=
  try_except
    (d ← self;
     DAQController.set_outputs (voltage_limit d) (Device.current_limit d);;
     log LimitsApplied;;
     (* Set current limit on Keithley *)
     env ← ask;
     when (PYVISA_AVAILABLE env && Device.keithley d)
       (let current_amps := (Device.current_limit d / 1000)%float in
        keithley_write (CURR current_amps);;
        log KeithleyLimitApplied);;
     ret true)
    (fun e => log (ErrorApplyingLimits e);; ret false).

(** [start_process], lines 413-447. *)
Definition start_process (voltage current : float) : M unit :=
  (* Check device connections before starting *)
  '(daq_connected, keithley_connected) ← check_device_connections;
  if negb daq_connected then raise RuntimeError
  else if negb keithley_connected then raise RuntimeError
  else
    try_except
      (log StartingProcess;;
       assign (fun d => d <| is_running := true |>);;
       now ← time_time;
       assign (fun d => d <| start_time := now |>);;
       assign (fun d => d <| current_stage := DWELL |>);;
       (* Reset CV/CC tracking for new experiment *)
       reset_cv_cc_tracking;;
       (* Reset hold time flag for new experiment *)
       assign (fun d => d <| experiment_stopped_by_hold_time := false |>);;
       (* Set the voltage and current limits and apply them *)
       set_voltage_current_limits voltage current;;
       apply_voltage_current_limits;;
       log ProcessStarted)
      (fun e =>
         log (ErrorStartingProcess e);;
         assign (fun d => d <| is_running := false |>);;
         raise e).

(** [stop_process], lines 449-457. *)
Definition stop_process : M unit :=
  try_except
    (log StoppingProcess;;
     assign (fun d => d <| is_running := false |>);;
     set_outputs 0 0)
    (fun e => log (ErrorStoppingProcess e)).

(** [_detect_cv_cc_transition], lines 743-784. *)
Definition _detect_cv_cc_transition (voltage current current_limit : float)
  : M bool :=
  let cv_cc_threshold := 0.95%float in
  d ← self;
  (* Detect CV → CC transition *)
  if bool_decide (power_supply_mode d = CV)
     && ge current (cv_cc_threshold * current_limit)
  then
    assign (fun d => d <| power_supply_mode := CC |>);;
    now ← time_time;
    assign (fun d => d <| cv_cc_transition_time := Some now |>);;
    assign (fun d => d <| voltage_before_cc := Some voltage |>);;
    assign (fun d => d <| current_limit_reached := true |>);;
    log CvToCcTransitionDetected;;
    ret true (* Transition occurred *)
  (* Detect CC → CV transition (if current drops significantly) *)
  else if bool_decide (power_supply_mode d = CC)
          && lt current (0.8 * current_limit)
  then
    assign (fun d => d <| power_supply_mode := CV |>);;
    assign (fun d => d <| current_limit_reached := false |>);;
    log CcToCvTransitionDetected;;
    ret true (* Transition occurred *)
  else ret false (* No transition *).

(** The loop shared by the two timer-period updates, lines 628-632 and
    651-655. *)
Definition update_periods_from (config : list (string * string)) : M unit :=
  for_each config (fun '(timer_name, period_key) =>
    w ← get;
    match dict_get TIMER_PERIODS period_key with
    | Some new_period =>
        when (bool_decide
                (is_Some (Timers.timers (timer_manager w) !! timer_name)))
          (TimerManager.update_period timer_name new_period)
    | None => ret tt
    end).

(** [_update_timer_periods_for_stage], lines 610-634. *)
Definition _update_timer_periods_for_stage (stage : Stage) : M unit :=
  d ← self;
  if negb (has_timer_manager d) then ret tt
  else
    (* Map stage number to stage name *)
    let stage_name := Settings.stage_name stage in
    (* Get timer configuration for this stage *)
    match dict_get STAGE_TIMER_CONFIGS stage_name with
    | Some config => update_periods_from config
    | None => ret tt
    end.

(** [_update_timer_periods_for_substage], lines 636-657. *)
Definition _update_timer_periods_for_substage (sub_stage : nat) : M unit :=
  d ← self;
  if negb (has_timer_manager d) then ret tt
  else
    when (Nat.eqb sub_stage 1 && bool_decide (current_stage d = HOLD))
      match dict_get STAGE_TIMER_CONFIGS "HOLD_EXTENDED" with
      | Some config => update_periods_from config
      | None => ret tt
      end.

(** *** [update_stage], lines 459-608

    The method is one [if]/[elif] chain over the stage; each branch is a
    definition of its own here, and [update_stage] dispatches to them. *)

(** Lines 472-481: the elapsed run time, the measurements, the detector. *)
Definition update_stage_measure (current_limit : float)
  : M (float * option float * option float * option float) :=
  now ← time_time;
  d ← self;
  let current_time := (now - start_time d)%float in
  '(voltage, current, temperature) ← get_measurements;
  (* Detect CV/CC power supply mode transitions *)
  match voltage, current with
  | Some v, Some c => _detect_cv_cc_transition v c current_limit;; ret tt
  | _, _ => ret tt
  end;;
  ret (current_time, voltage, current, temperature).

(** Stage 0: DWELL, lines 484-499. *)
Definition dwell_stage (current_time : float) (temperature : option float)
    (dwell_time : float) (target_temperature : option float) : M unit :=
  (* Check if dwell time has passed *)
  let check_dwell_time : M unit :=
    when (gt current_time dwell_time)
      (assign (fun d => d <| current_stage := INCUBATION |>);;
       assign (fun d => d <| sub_stage := 0 |>);;
       log EnteringIncubation;;
       _update_timer_periods_for_stage INCUBATION) in
  d ← self;
  (* Wait for target temperature if specified *)
  if truthy_opt target_temperature && negb (temperature_reached d) then
    if match temperature, target_temperature with
       | Some t, Some target => truthy t && ge t target
       | _, _ => false
       end
    then
      assign (fun d => d <| temperature_reached := true |>);;
      log TargetTemperatureReached;;
      check_dwell_time
    else ret tt (* Stay in dwell until temperature reached *)
  else check_dwell_time.

(** The assignments both FLASH triggers make, lines 508-511 and 520-523. *)
Definition enter_flash : M unit :=
  assign (fun d => d <| current_stage := FLASH |>);;
  now ← time_time;
  assign (fun d => d <| flash_start_time := Some now |>);;
  now ← time_time;
  assign (fun d => d <| stage_2_time := now |>);;
  assign (fun d => d <| sub_stage := 0 |>).

(** The test of line 504-506: mode CC and a transition time less than
    one second old; the clock is read only when the first two hold. *)
Definition recent_cv_cc_transition : M bool :=
  d ← self;
  match cv_cc_transition_time d with
  | Some t =>
      if bool_decide (power_supply_mode d = CC) && truthy t
      then now ← time_time; ret (lt (now - t) 1.0)
      else ret false
  | None => ret false
  end.

(** Stage 1: INCUBATION, lines 502-527. *)
Definition incubation_stage (voltage current : option float)
    (current_limit : float) : M unit :=
  (* Flash onset is triggered by CV→CC transition *)
  recent ← recent_cv_cc_transition;
  if (recent : bool) then
    enter_flash;;
    log EnteringFlashByTransition;;
    d ← self;
    py_format (voltage_before_cc d);;
    py_format voltage;;
    (* Change to flash timer periods *)
    _update_timer_periods_for_stage FLASH
  (* Fallback: traditional current threshold method *)
  else if match current with
          | Some c => truthy c && gt c (0.9 * current_limit)
          | None => false
          end
  then
    enter_flash;;
    log EnteringFlashByThreshold;;
    (* Change to flash timer periods *)
    _update_timer_periods_for_stage FLASH
  else ret tt.

(** Stage 2: FLASH, lines 530-552. *)
Definition flash_stage (current : option float) (current_limit : float)
  : M unit :=
  (* Debug logging every 2 seconds *)
  d ← self;
  match last_flash_log_time d with
  | None =>
      now ← time_time;
      assign (fun d => d <| last_flash_log_time := Some now |>)
  | Some last =>
      now ← time_time;
      when (ge (now - last) 2.0)
        ((* flash_elapsed *)
         (if truthy_opt (flash_start_time d)
          then time_time;; ret tt else ret tt);;
         (* the line formats current and current/current_limit*100 *)
         py_format current;;
         py_div (default 0%float current) current_limit;;
         log FlashStageProgress;;
         now ← time_time;
         assign (fun d => d <| last_flash_log_time := Some now |>))
  end;;
  (* Hold stage when current stabilizes at limit (CC mode established) *)
  d ← self;
  if bool_decide (power_supply_mode d = CC)
     && current_limit_reached d
     && match current with
        | Some c => truthy c && ge c (0.95 * current_limit)
        | None => false
        end
  then
    assign (fun d => d <| current_stage := HOLD |>);;
    now ← time_time;
    assign (fun d => d <| hold_start_time := now |>);;
    assign (fun d => d <| sub_stage := 0 |>);;
    log EnteringHold;;
    (* flash_elapsed = time.time() - self.flash_start_time *)
    time_time;;
    d ← self;
    py_format (flash_start_time d)
  else ret tt.

(** Stage 3: HOLD, lines 555-600. *)
Definition hold_stage (hold_time : float) : M unit :=
  (* Update hold time limit and track elapsed time since flash started *)
  assign (fun d => d <| hold_time_limit := hold_time |>);;
  (* Safety check: if flash_start_time wasn't set, use hold_start_time *)
  d ← self;
  flash_start ←
    match flash_start_time d with
    | Some t => ret t
    | None =>
        log FlashStartTimeFallback;;
        assign (fun d => d <| flash_start_time := Some (hold_start_time d) |>);;
        ret (hold_start_time d)
    end;
  now ← time_time;
  (* Time since flash start, not hold start *)
  assign (fun d => d <| hold_elapsed_time := (now - flash_start)%float |>);;
  (* Debug logging every 2 seconds *)
  match last_hold_log_time d with
  | None =>
      now ← time_time;
      assign (fun d => d <| last_hold_log_time := Some now |>)
  | Some last =>
      now ← time_time;
      when (ge (now - last) 2.0)
        (log HoldStageProgress;;
         now ← time_time;
         assign (fun d => d <| last_hold_log_time := Some now |>))
  end;;
  (* Check if hold time limit has been reached *)
  d ← self;
  if ge (hold_elapsed_time d) (hold_time_limit d) then
    log HoldTimeLimitReached;;
    (* Automatically stop the experiment by setting voltage and current
       to zero *)
    set_outputs 0 0;;
    stop_process;;
    (* Set a flag to indicate experiment was stopped due to hold time *)
    assign (fun d => d <| experiment_stopped_by_hold_time := true |>)
  else
    now ← time_time;
    let hold_elapsed := (now - hold_start_time d)%float in
    (* Sub-staging within HOLD *)
    when (gt hold_elapsed 30 && Nat.eqb (sub_stage d) 0)
      (assign (fun d => d <| sub_stage := 1 |>);;
       log EnteringHoldSubStage;;
       (* Change to extended hold timer periods *)
       _update_timer_periods_for_substage 1).

(** Stage 4: SHUTDOWN, lines 603-608. *)
Definition shutdown_stage (hold_current : float) : M unit :=
  (* Extended data acquisition for 10 more seconds *)
  now ← time_time;
  d ← self;
  let shutdown_elapsed := (now - hold_start_time d)%float in
  when (gt shutdown_elapsed (hold_current + 10))
    (log ExtendedAcquisitionComplete;;
     stop_process).

Definition update_stage (dwell_time hold_current current_limit
    hold_time : float) (target_temperature : option float) : M unit :=
  d ← self;
  if negb (is_running d) then ret tt
  else
    '(current_time, voltage, current, temperature) ←
      update_stage_measure current_limit;
    d ← self;
    match current_stage d with
    | DWELL =>
        dwell_stage current_time temperature dwell_time target_temperature
    | INCUBATION => incubation_stage voltage current current_limit
    | FLASH => flash_stage current current_limit
    | HOLD => hold_stage hold_time
    | SHUTDOWN => shutdown_stage hold_current
    end.

(** [read_sample_voltage], lines 264-293: the read of
    [read_sample_voltage_improved], but a failed read answers [None]. *)
Definition read_sample_voltage (daq_range actual_range : float)
  : M (option float) :=
  fun env w =>
    let w' := w <| daq_reads ::= S |> in
    match daq_samples env (daq_reads w) with
    | Some (a, b) =>
        (* voltage_raw = [a, b] *)
        let voltage_mean := ((0 + a + b) / 2)%float in
        (Ok (Some ((actual_range / daq_range) * voltage_mean)%float), w')
    | None => (log ErrorVoltageMeasurement;; ret None) env w'
    end.

(** [calculate_limits_from_parameters], lines 717-741: the pair it
    returns.  It reads and writes no attribute; products of floats do not
    raise, so the [except] branch is not taken. *)
Definition calculate_limits_from_parameters (elec_dist sample_width
    sample_thickness elec_field current_density : float) : float * float :=
  (* Calculate voltage needed (V = E * d) *)
  let voltage := (elec_field * elec_dist)%float in
  (* Calculate current needed (I = J * A) *)
  let area := (sample_width * sample_thickness)%float in
  let current := (current_density * area)%float in
  (voltage, current).

(** [get_power_supply_status], lines 786-803. *)
Definition get_power_supply_status : M Status.t :=
  d ← self;
  let status :=
    {| Status.mode := power_supply_mode d;
       Status.cv_cc_transition_time := cv_cc_transition_time d;
       Status.voltage_before_cc := voltage_before_cc d;
       Status.current_limit_reached := current_limit_reached d;
       Status.time_in_cc_mode := None |} in
  match cv_cc_transition_time d with
  | Some t =>
      if truthy t
      then now ← time_time;
           ret (status <| Status.time_in_cc_mode := Some (now - t)%float |>)
      else ret status
  | None => ret status
  end.

End DeviceController.

(** ** controllers/main_controller.py *)

Module MainController.
Import Main.

(** [self] of the main controller, and an assignment to its attributes. *)
Definition this : M Main.t := w ← get; ret (main_controller w).

Definition assign (f : Main.t -> Main.t) : M unit :=
  modify (fun w => w <| main_controller ::= f |>).

(** [TIMER_PERIODS[key]] *)
Definition period_of (key : string) : M float :=
  match dict_get TIMER_PERIODS key with
  | Some p => ret p
  | None => raise KeyError
  end.

(** [setup_timers], lines 27-55. *)
Definition setup_timers : M unit :=
  (p ← period_of "control"; TimerManager.add_timer "control" p Cb_control);;
  (p ← period_of "data_standard"; TimerManager.add_timer "data" p Cb_data);;
  (p ← period_of "display_standard";
   TimerManager.add_timer "display" p Cb_display);;
  (p ← period_of "temperature";
   TimerManager.add_timer "temperature" p Cb_temperature).

(** The objects [__init__] creates (lines 10-25), before [setup_timers]
    runs; the three flags say which instrument handles the two device
    classes obtained. *)
Definition fresh (daq_ao_task daq_keithley keithley : bool) : World :=
  {| daq_controller :=
       {| Daq.ao_task := daq_ao_task; Daq.keithley := daq_keithley |};
     device_controller :=
       (DeviceController.__init__ keithley)
         <| Device.has_timer_manager := true |>;
     timer_manager := TimerManager.__init__;
     main_controller :=
       {| dwell_time := 300; hold_current := 60; current_limit := 60;
          target_temperature := None; hold_time := 60 |};
     ao_written := []; keithley_written := []; logged := []; slept := [];
     clock_reads := 0; ao_writes := 0; keithley_writes := 0;
     daq_reads := 0; keithley_reads := 0; connection_checks := 0 |}.

(** The world [MainController()] leaves: [__init__], lines 10-25. *)
Definition __init__ (daq_ao_task daq_keithley keithley : bool) (env : Env)
  : World :=
  (setup_timers env (fresh daq_ao_task daq_keithley keithley)).2.

(** [start_experiment], lines 57-75. *)
Definition start_experiment (voltage current dwell_time hold_current
    hold_time : float) (target_temperature : option float) : M unit :=
  (* Store experiment parameters *)
  assign (fun m => m <| Main.dwell_time := dwell_time |>);;
  assign (fun m => m <| Main.hold_current := hold_current |>);;
  assign (fun m => m <| Main.current_limit := current |>);;
  assign (fun m => m <| Main.hold_time := hold_time |>);;
  assign (fun m => m <| Main.target_temperature := target_temperature |>);;
  DeviceController.start_process voltage current;;
  TimerManager.start_all.

(** [stop_experiment], lines 77-80. *)
Definition stop_experiment : M unit :=
  DeviceController.stop_process;;
  TimerManager.stop_all.

(** [control_timer_callback], lines 82-91. *)
Definition control_timer_callback : M unit :=
  d ← self;
  when (Device.is_running d)
    (m ← this;
     DeviceController.update_stage (dwell_time m) (hold_current m)
       (current_limit m) (hold_time m) (target_temperature m)).

(** [data_timer_callback], lines 93-97. *)
Definition data_timer_callback : M unit :=
  d ← self;
  when (Device.is_running d) (DeviceController.get_measurements;; ret tt).

(** [display_timer_callback], lines 99-103. *)
Definition display_timer_callback : M unit :=
  d ← self;
  when (Device.is_running d) (DeviceController.get_measurements;; ret tt).

(** [temperature_timer_callback], lines 105-109. *)
Definition temperature_timer_callback : M unit :=
  d ← self;
  when (Device.is_running d) (DeviceController.get_measurements;; ret tt).

(** Calling a registered callback. *)
Definition call (cb : callback) : M unit :=
  match cb with
  | Cb_control => control_timer_callback
  | Cb_data => data_timer_callback
  | Cb_display => display_timer_callback
  | Cb_temperature => temperature_timer_callback
  end.

(** [update_parameters], lines 128-139. *)
Definition update_parameters (electrical_distance width thickness
    electric_field current_density : float) : M unit :=
  let voltage := (electric_field * electrical_distance)%float in
  let current := (current_density * width * thickness)%float in
  DeviceController.set_voltage_current_limits voltage current;;
  ret tt.

(** [update_hold_time], lines 141-146. *)
Definition update_hold_time (hold_time : float) : M unit :=
  assign (fun m => m <| Main.hold_time := hold_time |>).

(** [update_timer_periods], lines 111-121; [stage] is a stage number. *)
Definition update_timer_periods (stage : nat) : M unit :=
  if Nat.eqb stage (STAGES FLASH) then
    (p ← period_of "data_flash"; TimerManager.update_period "data" p);;
    (p ← period_of "display_flash"; TimerManager.update_period "display" p)
  else
    (p ← period_of "data_standard"; TimerManager.update_period "data" p);;
    (p ← period_of "display_standard";
     TimerManager.update_period "display" p).

End MainController.

(** ** utils/helpers.py *)

Module Helpers.

(** [min(a, b)] and [max(a, b)] of two numbers: Python keeps the first
    argument unless the second is strictly smaller (strictly greater). *)
Definition py_min (a b : float) : float := if lt b a then b else a.
Definition py_max (a b : float) : float := if gt b a then b else a.

(** [elapsed_time], lines 13-16. *)
Definition elapsed_time (start_time : float) : M float :=
  now ← time_time;
  ret (now - start_time)%float.

(** [calculate_voltage_from_field], lines 30-35. *)
Definition calculate_voltage_from_field (field_strength electrode_distance
    : float) : float :=
  (field_strength * electrode_distance)%float.

(** [calculate_current_from_density], lines 37-42. *)
Definition calculate_current_from_density (current_density sample_width
    sample_thickness : float) : float :=
  (current_density * (sample_width * sample_thickness))%float.

(** [clip_value], lines 44-47. *)
Definition clip_value (value min_val max_val : float) : float :=
  py_max min_val (py_min max_val value).

End Helpers.

(** * Worlds, oracles and the vocabulary of the statements *)

(** ** Oracles and worlds *)

(** An oracle of instruments that are present and never fail, with a clock
    that reads [t0], [t0 + step], [t0 + 2 * step], ... ; [ua] is the
    source-meter's reading, and the DAQ reads 1 V (60 V on the sample). *)
Definition steady (t0 step ua : float) : Env :=
  {| NIDAQMX_AVAILABLE := true;
     PYVISA_AVAILABLE := true;
     clock := fun n => (t0 + step * of_uint63 (Uint63.of_nat n))%float;
     ao_write_fails := fun _ => false;
     keithley_write_fails := fun _ => false;
     daq_samples := fun _ => Some (1, 1)%float;
     keithley_current_ua := fun _ => Some ua;
     connections := fun _ => (true, true) |}.

(** An oracle like [steady 50 0.01 _] whose source-meter reads 96 mA once
    and 70 mA from then on. *)
Definition dropping : Env :=
  {| NIDAQMX_AVAILABLE := true;
     PYVISA_AVAILABLE := true;
     clock := fun n => (50 + 0.01 * of_uint63 (Uint63.of_nat n))%float;
     ao_write_fails := fun _ => false;
     keithley_write_fails := fun _ => false;
     daq_samples := fun _ => Some (1, 1)%float;
     keithley_current_ua := fun n =>
       match n with
       | 0 => Some 96000%float
       | S _ => Some 70000%float
       end;
     connections := fun _ => (true, true) |}.

(** An oracle whose instruments answer no read: the DAQ read raises and
    the source-meter read fails; the clock reads [t0], [t0 + 1], ... *)
Definition unreadable (t0 : float) : Env :=
  {| NIDAQMX_AVAILABLE := true;
     PYVISA_AVAILABLE := true;
     clock := fun n => (t0 + of_uint63 (Uint63.of_nat n))%float;
     ao_write_fails := fun _ => false;
     keithley_write_fails := fun _ => false;
     daq_samples := fun _ => None;
     keithley_current_ua := fun _ => None;
     connections := fun _ => (true, true) |}.


(** An oracle like [steady t0 step ua] whose DAQ answers no voltage read,
    while the source-meter reads [ua]. *)
Definition voltage_unreadable (t0 step ua : float) : Env :=
  {| NIDAQMX_AVAILABLE := true;
     PYVISA_AVAILABLE := true;
     clock := fun n => (t0 + step * of_uint63 (Uint63.of_nat n))%float;
     ao_write_fails := fun _ => false;
     keithley_write_fails := fun _ => false;
     daq_samples := fun _ => None;
     keithley_current_ua := fun _ => Some ua;
     connections := fun _ => (true, true) |}.

(** The world after [MainController()] with every instrument obtained. *)
Definition world0 : World :=
  MainController.__init__ true true true (steady 0 1 0).

(** A running controller in stage DWELL, started at time 0. *)
Definition dwelling : World :=
  world0 <| device_controller ::= fun d =>
              d <| Device.is_running := true |> |>.

(** A running controller in stage INCUBATION, in mode CV. *)
Definition incubating : World :=
  world0 <| device_controller ::= fun d =>
              d <| Device.is_running := true |>
                <| Device.current_stage := INCUBATION |> |>.


(** A manager that runs a fifth timer, ["tick"], of period 5 s. *)
Definition ticking : World :=
  (TimerManager.start_all (steady 0 1 0)
     (TimerManager.add_timer "tick" 5 Cb_data (steady 0 1 0) world0).2).2.

(** A manager whose four timers run, with a fifth, ["late"], registered
    after [start_all]: it has no thread. *)
Definition late_timer : World :=
  (TimerManager.add_timer "late" 1 Cb_data (steady 0 1 0)
     (TimerManager.start_all (steady 0 1 0) world0).2).2.

(** ** Outputs *)

(** Whether a commanded pair passes the range validation of lines 137-140. *)
Definition in_range (voltage current : float) : bool :=
  (le 0 voltage && le voltage 300) && (le 0 current && le current 2000).

(** The outputs can be driven: the DAQ driver and its analog-output task
    are there, and no write to an instrument raises. *)
Definition outputs_work (env : Env) (w : World) : Prop :=
  NIDAQMX_AVAILABLE env = true /\
  Daq.ao_task (daq_controller w) = true /\
  (forall k, ao_write_fails env k = false) /\
  (forall k, keithley_write_fails env k = false).

(** ** The detector *)

(** Feeding the detector one current reading after the other, at a fixed
    voltage: what each call answers and the mode it leaves. *)
Fixpoint feed (voltage : float) (currents : list float)
    (current_limit : float) : M (list (bool * Mode)) :=
  match currents with
  | [] => ret []
  | current :: rest =>
      transition ←
        DeviceController._detect_cv_cc_transition voltage current current_limit;
      d ← self;
      later ← feed voltage rest current_limit;
      ret ((transition, Device.power_supply_mode d) :: later)
  end.

(** ** A turn of the timer loop *)

(** The world a turn of the loop leaves once its callback has returned
    [r] in world [w1]: an exception is printed; the clock is read again;
    the period is the one registered now; the sleep is
    [max(0, period - elapsed)], and [time.sleep] is called when that is
    positive. *)
Definition after_callback (env : Env) (name : string) (start_time : float)
    (r : result unit) (w1 : World) (period : float) : World :=
  let w2 :=
    match r with
    | Ok _ => w1
    | Raise e => w1 <| logged ::= cons (TimerCallbackError name e) |>
    end in
  let elapsed := (clock env (clock_reads w2) - start_time)%float in
  let sleep_time := max0 (period - elapsed) in
  let w3 := w2 <| clock_reads ::= S |> in
  if gt sleep_time 0 then w3 <| slept ::= cons sleep_time |> else w3.

(** The period registered for [name] once the callback has returned. *)
Definition period_after (name : string) (w1 : World) : option float :=
  Timers.timers (timer_manager w1) !! name.

(** ** What a call leaves unchanged *)

(** Two worlds with the same objects and as many clock readings made (the
    instruments, the log and the other oracle positions may differ). *)
Definition same_objects (w w' : World) : Prop :=
  device_controller w' = device_controller w /\
  daq_controller w' = daq_controller w /\
  timer_manager w' = timer_manager w /\
  main_controller w' = main_controller w /\
  clock_reads w' = clock_reads w.

(** The timer-period updates only write periods of the timer manager. *)
Definition periods_only (w w' : World) : Prop :=
  exists periods,
    w' = w <| timer_manager ::=
               fun t => t <| Timers.timers := periods |> |>.

(** Two device controllers that differ at most in the four attributes the
    CV/CC detector writes. *)
Definition detector_only (d d1 : Device.t) : Prop :=
  exists mode time voltage reached,
    d1 = d <| Device.power_supply_mode := mode |>
           <| Device.cv_cc_transition_time := time |>
           <| Device.voltage_before_cc := voltage |>
           <| Device.current_limit_reached := reached |>.

(** ** A tick *)

(** The stage the device controller is in. *)
Definition stage_of (w : World) : Stage :=
  Device.current_stage (device_controller w).

(** [now] is a reading of the clock made between the worlds [w] and [w']. *)
Definition read_during (env : Env) (w w' : World) (now : float) : Prop :=
  exists k, clock_reads w <= k < clock_reads w' /\ now = clock env k.

(** The voltage a measurement returned. *)
Definition measured_voltage
    (m : result (float * option float * option float * option float))
  : option float :=
  match m with
  | Ok (_, voltage, _, _) => voltage
  | Raise _ => None
  end.

(** The current a measurement returned. *)
Definition measured_current
    (m : result (float * option float * option float * option float))
  : option float :=
  match m with
  | Ok (_, _, current, _) => current
  | Raise _ => None
  end.

(** The voltage read of the next measurement fails. *)
Definition voltage_read_fails (env : Env) (w : World) : bool :=
  bool_decide (daq_samples env (daq_reads w) = None).

(** The current read of the next measurement fails: no driver, no handle,
    or the source-meter does not answer. *)
Definition current_read_fails (env : Env) (w : World) : bool :=
  negb (PYVISA_AVAILABLE env) || negb (Device.keithley (device_controller w))
  || bool_decide (keithley_current_ua env (keithley_reads w) = None).

(** The test of lines 504-506 in the world [w1] the detector left: the
    mode is CC and a transition time is recorded, non-zero and less than
    1.0 s before the clock's next reading. *)
Definition transition_trigger (env : Env) (w1 : World) : bool :=
  let d := device_controller w1 in
  match Device.cv_cc_transition_time d with
  | Some t =>
      bool_decide (Device.power_supply_mode d = CC) && truthy t
      && lt (clock env (clock_reads w1) - t) 1.0
  | None => false
  end.

(** The test of line 519: a current that was read, is not zero and is
    strictly above 0.9 * current_limit. *)
Definition threshold_trigger (current : option float) (current_limit : float)
  : bool :=
  match current with
  | Some c => truthy c && gt c (0.9 * current_limit)
  | None => false
  end.

(** [flash_start_time] holds a number ([__init__] sets 0, the FLASH
    triggers set clock readings, nothing sets [None]). *)
Definition flash_start_set (w : World) : Prop :=
  is_Some (Device.flash_start_time (device_controller w)).

(** ** Runs *)

(** What the callers of the controllers do during a run, [start_process]
    apart: timer ticks, direct calls of [update_stage] (as the GUI makes
    them), stopping, and changes of parameters and outputs. *)
Inductive operation :=
| op_timer_tick (cb : callback)
| op_update_stage (dwell_time hold_current current_limit hold_time : float)
    (target_temperature : option float)
| op_stop_process
| op_stop_experiment
| op_update_hold_time (hold_time : float)
| op_update_parameters (electrical_distance width thickness electric_field
    current_density : float)
| op_set_voltage_current_limits (voltage current : float)
| op_set_outputs (voltage current : float)
| op_get_measurements.

(** Performing an operation. *)
Definition perform (o : operation) : M unit :=
  match o with
  | op_timer_tick cb => MainController.call cb
  | op_update_stage dwell_time hold_current current_limit hold_time
      target_temperature =>
      DeviceController.update_stage dwell_time hold_current current_limit
        hold_time target_temperature
  | op_stop_process => DeviceController.stop_process
  | op_stop_experiment => MainController.stop_experiment
  | op_update_hold_time hold_time => MainController.update_hold_time hold_time
  | op_update_parameters electrical_distance width thickness electric_field
      current_density =>
      MainController.update_parameters electrical_distance width thickness
        electric_field current_density
  | op_set_voltage_current_limits voltage current =>
      DeviceController.set_voltage_current_limits voltage current;; ret tt
  | op_set_outputs voltage current =>
      DeviceController.set_outputs voltage current
  | op_get_measurements => DeviceController.get_measurements;; ret tt
  end.

(** The world after a sequence of operations; an exception ends one
    operation (the timer loop prints it, the GUI reports it), not the run. *)
Fixpoint perform_all (env : Env) (ops : list operation) (w : World) : World :=
  match ops with
  | [] => w
  | o :: ops' => perform_all env ops' (perform o env w).2
  end.

(** A controller's life: runs begun by [start_process], with the
    operations of a run in between. *)
Fixpoint lifetime (env : Env)
    (steps : list (operation + float * float)) (w : World) : World :=
  match steps with
  | [] => w
  | inl o :: steps' => lifetime env steps' (perform o env w).2
  | inr (voltage, current) :: steps' =>
      lifetime env steps'
        (DeviceController.start_process voltage current env w).2
  end.

(** ** The timer manager's threads *)

(** A world whose timer manager has other thread handles. *)
Definition with_threads (w : World) (threads : gmap string (option thread))
  : World :=
  w <| timer_manager ::= fun t => t <| Timers.threads := threads |> |>.

(** The body of the loop of [stop_all], lines 62-65. *)
Definition stop_all_body (name : string) : M unit :=
  t ← TimerManager.this;
  match Timers.threads t !! name with
  | Some (Some _) =>
      TimerManager.join name;;
      TimerManager.assign (fun t =>
        t <| Timers.threads ::= <[name := None]> |>)
  | _ => ret tt
  end.

(** * Properties *)

Arguments Py.le : simpl never.
Arguments Py.lt : simpl never.
Arguments Py.ge : simpl never.
Arguments Py.gt : simpl never.
Arguments Py.truthy : simpl never.
Arguments Settings.dict_get : simpl never.

(** Running a method symbolically: the monad's combinators are unfolded
    and the world is rebuilt field by field; the methods' own loops and
    calls stay folded until a lemma about them is used. *)
Ltac run :=
  cbv beta delta
    [mbind M_bind bind mret M_ret ret get ask modify raise try_except when
     log time_time time_sleep self py_div py_format
     DeviceController.assign TimerManager.assign TimerManager.this
     MainController.assign MainController.this];
  cbn.

(** ** Output limits ([DAQController.set_outputs]) *)

(** C4: [DAQController.set_outputs] rejects a pair with voltage outside
    [0, 300] or current outside [0, 2000]: whatever the state of the
    hardware the call raises ([ValueError] when the DAQ is there) and
    nothing is written to the analog outputs, neither clamped nor scaled.
    A pair in range, on a DAQ that is there and accepts the write, is
    written as it is, each value only divided by its scale factor (60 V
    and 400 mA per control volt). *)
Theorem set_outputs_rejects_or_passes voltage current env w :
  let '(r, w') := DAQController.set_outputs voltage current env w in
  if in_range voltage current
  then NIDAQMX_AVAILABLE env = true ->
       Daq.ao_task (daq_controller w) = true ->
       ao_write_fails env (ao_writes w) = false ->
       r = Ok tt /\
       ao_written w' =
         ((voltage / VOLTAGE_SCALE_OUTPUT)%float,
          (current / (CURRENT_SCALE * 1000))%float) :: ao_written w
  else is_ok r = false /\
       (NIDAQMX_AVAILABLE env = true ->
        Daq.ao_task (daq_controller w) = true -> r = Raise ValueError) /\
       ao_written w' = ao_written w /\ ao_writes w' = ao_writes w /\
       keithley_written w' = keithley_written w.
Proof.
  unfold in_range, DAQController.set_outputs. run.
  destruct (NIDAQMX_AVAILABLE env), (Daq.ao_task (daq_controller w)); cbn;
    try (destruct (_ && _ && _); intuition discriminate).
  destruct (le 0 voltage && le voltage 300); cbn; [|done].
  destruct (le 0 current && le current 2000); cbn; [|done].
  unfold DAQController.ao_task_write.
  destruct (ao_write_fails env (ao_writes w)); cbn; [done|].
  repeat match goal with
         | |- context [if ?c then _ else _] => destruct c; cbn
         end; done.
Qed.

Lemma set_outputs_rejects_or_passes_witness :
  let '(r, w') := DAQController.set_outputs 150 1000 (steady 0 1 0) world0 in
  r = Ok tt /\ ao_written w' = [(2.5, 2.5)%float].
Proof.
  exact (set_outputs_rejects_or_passes 150 1000 (steady 0 1 0) world0
           eq_refl eq_refl eq_refl).
Defined.

(** ** The CV/CC detector ([DeviceController._detect_cv_cc_transition]) *)

(** Closed comparisons are evaluated. *)
Ltac eval_closed :=
  repeat match goal with
         | |- context [bool_decide (?a = ?b)] =>
             let v := eval vm_compute in (bool_decide (a = b)) in
             match v with
             | true => change (bool_decide (a = b)) with true
             | false => change (bool_decide (a = b)) with false
             end
         | |- context [ge ?a ?b] =>
             let v := eval vm_compute in (ge a b) in
             match v with
             | true => change (ge a b) with true
             | false => change (ge a b) with false
             end
         | |- context [lt ?a ?b] =>
             let v := eval vm_compute in (lt a b) in
             match v with
             | true => change (lt a b) with true
             | false => change (lt a b) with false
             end
         | |- context [le ?a ?b] =>
             let v := eval vm_compute in (le a b) in
             match v with
             | true => change (le a b) with true
             | false => change (le a b) with false
             end
         | |- context [gt ?a ?b] =>
             let v := eval vm_compute in (gt a b) in
             match v with
             | true => change (gt a b) with true
             | false => change (gt a b) with false
             end
         end.

(** C2: the detector is a two-threshold classifier.  In mode CV a current
    of at least 0.95 * current_limit switches to CC, records the voltage
    and the time of the transition, sets [current_limit_reached] and
    reports a transition; in mode CC a current below 0.80 * current_limit
    switches back to CV, clears the flag and reports a transition; in every
    other case nothing changes and no transition is reported.  With limit
    100 and the currents 50, 96, 97, 70 from mode CV the modes are CV, CC,
    CC, CV, with transitions reported at indices 1 and 3 only. *)
Theorem detect_cv_cc_hysteresis voltage current current_limit env w :
  let d := device_controller w in
  (let '(r, w') :=
     DeviceController._detect_cv_cc_transition voltage current current_limit
       env w in
   let d' := device_controller w' in
   match Device.power_supply_mode d with
   | CV =>
       if ge current (0.95 * current_limit)
       then r = Ok true /\
            Device.power_supply_mode d' = CC /\
            Device.voltage_before_cc d' = Some voltage /\
            Device.cv_cc_transition_time d' = Some (clock env (clock_reads w)) /\
            Device.current_limit_reached d' = true
       else r = Ok false /\ w' = w
   | CC =>
       if lt current (0.80 * current_limit)
       then r = Ok true /\
            Device.power_supply_mode d' = CV /\
            Device.current_limit_reached d' = false
       else r = Ok false /\ w' = w
   end) /\
  (Device.power_supply_mode d = CV ->
   (feed voltage [50; 96; 97; 70]%float 100 env w).1 =
     Ok [(false, CV); (true, CC); (false, CC); (true, CV)]).
Proof.
  split.
  - unfold DeviceController._detect_cv_cc_transition. run.
    destruct (Device.power_supply_mode (device_controller w)); cbn.
    + destruct (ge current _); cbn; done.
    + destruct (lt current _); cbn; done.
  - cbn. intros Hcv.
    unfold feed, DeviceController._detect_cv_cc_transition. run.
    repeat first [rewrite Hcv | progress eval_closed | progress cbn].
    reflexivity.
Qed.

Lemma detect_cv_cc_hysteresis_witness :
  (feed 120 [50; 96; 97; 70]%float 100 (steady 0 1 0) world0).1 =
    Ok [(false, CV); (true, CC); (false, CC); (true, CV)].
Proof.
  exact (proj2 (detect_cv_cc_hysteresis 120 0 100 (steady 0 1 0) world0)
           eq_refl).
Defined.

(** ** Derived limits ([MainController.update_parameters]) *)

(** C9: [update_parameters] computes voltage = field * distance and
    current = density * width * thickness and stores exactly these as the
    device controller's limits; for 0.4 cm, 1.6 mm, 1.0 mm, 30 V/cm and
    100 mA/mm^2 the limits are 12.0 V and 160 mA exactly, in binary64
    arithmetic. *)
Theorem update_parameters_limits
    electrical_distance width thickness electric_field current_density env w :
  (let '(r, w') :=
     MainController.update_parameters electrical_distance width thickness
       electric_field current_density env w in
   r = Ok tt /\
   Device.voltage_limit (device_controller w') =
     (electric_field * electrical_distance)%float /\
   Device.current_limit (device_controller w') =
     (current_density * width * thickness)%float) /\
  (let '(r, w') :=
     MainController.update_parameters 0.4 1.6 1.0 30 100 env w in
   r = Ok tt /\
   Device.voltage_limit (device_controller w') = 12.0%float /\
   Device.current_limit (device_controller w') = 160%float).
Proof.
  unfold MainController.update_parameters,
    DeviceController.set_voltage_current_limits.
  run. done.
Qed.

(** ** Stopping ([DeviceController.stop_process]) *)

(** Searching the goal for a test that can be decided by cases. *)
Ltac case_cond :=
  match goal with
  | |- context [if ?c then _ else _] => destruct c eqn:?; cbn
  end.

(** [DeviceController.set_outputs] only talks to the instruments and the
    logger: no object changes, and the clock is not read. *)
Lemma set_outputs_objects voltage current env w :
  let '(_, w') := DeviceController.set_outputs voltage current env w in
  device_controller w' = device_controller w /\
  daq_controller w' = daq_controller w /\
  timer_manager w' = timer_manager w /\
  main_controller w' = main_controller w /\
  clock_reads w' = clock_reads w.
Proof.
  unfold DeviceController.set_outputs, DAQController.set_outputs,
    DAQController.ao_task_write, DeviceController.keithley_write.
  run. repeat case_cond; done.
Qed.

(** With the instruments there and the writes accepted, zero is what
    [set_outputs(0, 0)] leaves on the analog outputs. *)
Lemma set_outputs_zero env w :
  NIDAQMX_AVAILABLE env = true ->
  Daq.ao_task (daq_controller w) = true ->
  ao_write_fails env (ao_writes w) = false ->
  keithley_write_fails env (keithley_writes w) = false ->
  keithley_write_fails env (S (keithley_writes w)) = false ->
  let '(r, w') := DeviceController.set_outputs 0 0 env w in
  r = Ok tt /\ ao_written w' = (0, 0)%float :: ao_written w /\
  ao_writes w' = S (ao_writes w).
Proof.
  intros Hd Ht Ha Hk Hk'.
  unfold DeviceController.set_outputs, DAQController.set_outputs,
    DAQController.ao_task_write, DeviceController.keithley_write.
  run.
  repeat first
    [ rewrite Hd | rewrite Ht | rewrite Ha | rewrite Hk | rewrite Hk'
    | progress eval_closed | progress cbn | case_cond ];
    first [done | congruence].
Qed.

(** C7: [stop_process] never raises: whatever the state of the devices
    and whatever the drivers do, it returns normally with [is_running]
    false; it attempts [set_outputs(0, 0)], and an exception of that call
    is logged and goes no further. *)
Theorem stop_process_never_raises env w :
  let '(r, w') := DeviceController.stop_process env w in
  r = Ok tt /\
  Device.is_running (device_controller w') = false /\
  Device.current_stage (device_controller w') =
    Device.current_stage (device_controller w) /\
  let w1 :=
    w <| logged ::= cons StoppingProcess |>
      <| device_controller ::= fun d => d <| Device.is_running := false |> |>
  in
  match DeviceController.set_outputs 0 0 env w1 with
  | (Ok _, w1') => w' = w1'
  | (Raise e, w1') => w' = w1' <| logged ::= cons (ErrorStoppingProcess e) |>
  end.
Proof.
  unfold DeviceController.stop_process. run.
  match goal with
  | |- context [DeviceController.set_outputs 0 0 env ?w1] =>
      pose proof (set_outputs_objects 0 0 env w1) as H;
      destruct (DeviceController.set_outputs 0 0 env w1) as [[[]|e] w1']
  end; destruct w1'; cbn in *; destruct H as (-> & _); done.
Qed.

(** ** The timer loop ([TimerManager._timer_loop], [update_period]) *)

(** C8: a turn of a timer's loop, taken while [running] is set, reads the
    clock for its start instant, calls the timer's callback, reads the
    clock again and sleeps [max(0, period - elapsed)], where the period is
    the one registered when the callback has returned; whether the callback
    returned or raised (the exception is printed), the loop goes on to its
    next test of [running].  A period set by [update_period] is the
    registered one from then on, so the next turn sleeps by it. *)
Theorem timer_loop_turn call fuel name cb period env w :
  let start_time := clock env (clock_reads w) in
  let rw := call cb env (w <| clock_reads ::= S |>) in
  Timers.running (timer_manager w) = true ->
  Timers.callbacks (timer_manager w) !! name = Some cb ->
  period_after name rw.2 = Some period ->
  TimerManager._timer_loop call (S fuel) name env w =
    TimerManager._timer_loop call fuel name env
      (after_callback env name start_time rw.1 rw.2 period) /\
  forall new_period w0,
    is_Some (period_after name w0) ->
    period_after name (TimerManager.update_period name new_period env w0).2 =
      Some new_period.
Proof.
  intros start_time rw Hrun Hcb Hper. split.
  - unfold after_callback, period_after in *. subst rw start_time.
    cbn [TimerManager._timer_loop]. unfold TimerManager._timer_loop_body.
    run. rewrite Hrun. cbn. rewrite Hcb.
    destruct (call cb env _) as [[[]|e] w1]; cbn in *; rewrite Hper; cbn;
      destruct (gt _ 0); reflexivity.
  - intros new_period w0 Hsome. unfold period_after in *.
    unfold TimerManager.update_period. run.
    rewrite bool_decide_eq_true_2 by done. cbn.
    apply lookup_insert_eq.
Qed.

Lemma timer_loop_turn_witness :
  slept (TimerManager._timer_loop MainController.call 1 "tick"
           (steady 0 1 0) ticking).2 = [4%float].
Proof.
  rewrite (proj1 (timer_loop_turn MainController.call 0 "tick" Cb_data 5
                    (steady 0 1 0) ticking eq_refl eq_refl eq_refl)).
  reflexivity.
Defined.

(** ** Stopping one timer ([TimerManager.stop_timer]) *)

(** C10 as stated fails: ["late"] is a registered timer name and the flag
    is set, yet [stop_timer("late")] returns with the flag still set. *)
Lemma stop_timer_counterexample :
  is_Some (Timers.timers (timer_manager late_timer) !! "late") /\
  Timers.running (timer_manager late_timer) = true /\
  let '(r, w') := TimerManager.stop_timer "late" (steady 0 1 0) late_timer in
  r = Ok tt /\ Timers.running (timer_manager w') = true.
Proof.
  split; [|split].
  - exists 1%float. vm_compute. reflexivity.
  - vm_compute. reflexivity.
  - vm_compute. split; reflexivity.
Qed.

(** C10, amended: for a name whose thread handle is set (the timer was
    started and not stopped since), [stop_timer(name)] clears the one
    [running] flag all timers share, so the loop of every timer, not only
    the named one, ends at its next test of the flag; the named thread is
    joined and its handle dropped.  For any other name the call changes
    nothing. *)
Theorem stop_timer_clears_shared_flag name env w :
  let '(r, w') := TimerManager.stop_timer name env w in
  r = Ok tt /\
  match Timers.threads (timer_manager w) !! name with
  | Some (Some _) =>
      Timers.running (timer_manager w') = false /\
      Timers.threads (timer_manager w') !! name = Some None /\
      forall call fuel other,
        TimerManager._timer_loop call fuel other env w' = (Ok true, w')
  | _ => w' = w
  end.
Proof.
  unfold TimerManager.stop_timer, TimerManager.join. run.
  destruct (Timers.threads (timer_manager w) !! name) as [[th|]|]; cbn;
    try done.
  split; [done|]. split; [done|]. split.
  - apply lookup_insert_eq.
  - intros call [|fuel] other; reflexivity.
Qed.

(** ** Facts shared by the properties of [update_stage] *)

Arguments DeviceController.set_outputs : simpl never.
Arguments DeviceController.stop_process : simpl never.
Arguments DeviceController.update_periods_from : simpl never.
Arguments DeviceController._update_timer_periods_for_stage : simpl never.
Arguments DeviceController._update_timer_periods_for_substage : simpl never.
Arguments DeviceController.update_stage_measure : simpl never.
Arguments DeviceController.get_measurements : simpl never.

Lemma set_outputs_same_objects voltage current env w :
  same_objects w (DeviceController.set_outputs voltage current env w).2.
Proof.
  pose proof (set_outputs_objects voltage current env w) as H.
  destruct (DeviceController.set_outputs voltage current env w) as [r w'].
  unfold same_objects. cbn. tauto.
Qed.

Lemma set_outputs_zero_works env w :
  outputs_work env w ->
  let '(r, w') := DeviceController.set_outputs 0 0 env w in
  r = Ok tt /\ ao_written w' = (0, 0)%float :: ao_written w.
Proof.
  intros (Hd & Ht & Ha & Hk).
  pose proof (set_outputs_zero env w Hd Ht (Ha _) (Hk _) (Hk _)) as H.
  destruct (DeviceController.set_outputs 0 0 env w) as [r w']. tauto.
Qed.

(** What [stop_process] does to the device controller, and that it leaves
    the other objects alone. *)
Lemma stop_process_spec env w :
  let '(r, w') := DeviceController.stop_process env w in
  r = Ok tt /\
  device_controller w' =
    (device_controller w) <| Device.is_running := false |> /\
  daq_controller w' = daq_controller w /\
  timer_manager w' = timer_manager w /\
  main_controller w' = main_controller w /\
  clock_reads w' = clock_reads w /\
  (outputs_work env w ->
   ao_written w' = (0, 0)%float :: ao_written w).
Proof.
  unfold DeviceController.stop_process. run.
  match goal with
  | |- context [DeviceController.set_outputs 0 0 env ?w1] =>
      pose proof (set_outputs_same_objects 0 0 env w1)
        as (H1 & H2 & H3 & H4 & H5);
      pose proof (set_outputs_zero_works env w1) as H6;
      destruct (DeviceController.set_outputs 0 0 env w1) as [[[]|e] w1']
  end; cbn in *; rewrite H1, H2, H3, H4, H5; repeat split; try done.
  - intros Hw. apply H6. exact Hw.
  - intros Hw. destruct (H6 Hw) as [? _]. done.
Qed.

Lemma periods_only_refl w : periods_only w w.
Proof.
  exists (Timers.timers (timer_manager w)).
  destruct w as [? ? [] ?]; reflexivity.
Qed.

Lemma periods_only_trans w1 w2 w3 :
  periods_only w1 w2 -> periods_only w2 w3 -> periods_only w1 w3.
Proof. intros [p ->] [q ->]. exists q. reflexivity. Qed.

Lemma update_period_periods_only name new_period env w :
  let '(r, w') := TimerManager.update_period name new_period env w in
  r = Ok tt /\ periods_only w w'.
Proof.
  unfold TimerManager.update_period. run.
  case_cond; split; try done.
  - eexists. reflexivity.
  - apply periods_only_refl.
Qed.

(** A loop whose body never raises and keeps a transitive relation. *)
Lemma for_each_keeps {A} (R : World -> World -> Prop) (xs : list A)
    (body : A -> M unit) :
  (forall w, R w w) ->
  (forall w1 w2 w3, R w1 w2 -> R w2 w3 -> R w1 w3) ->
  (forall x env w, let '(r, w') := body x env w in r = Ok tt /\ R w w') ->
  forall env w,
    let '(r, w') := for_each xs body env w in r = Ok tt /\ R w w'.
Proof.
  intros Hrefl Htrans Hbody env. induction xs as [|x xs IH]; intros w.
  - cbn. auto.
  - cbn [for_each]. unfold mbind, M_bind, bind.
    specialize (Hbody x env w). destruct (body x env w) as [r w1].
    destruct Hbody as [-> Hw1]. specialize (IH w1).
    destruct (for_each xs body env w1) as [r w2].
    destruct IH as [-> Hw2]. eauto.
Qed.

Lemma update_periods_from_periods_only config env w :
  let '(r, w') := DeviceController.update_periods_from config env w in
  r = Ok tt /\ periods_only w w'.
Proof.
  unfold DeviceController.update_periods_from.
  apply (for_each_keeps periods_only);
    [apply periods_only_refl | apply periods_only_trans |].
  clear env w. intros [timer_name period_key] env w. run.
  destruct (dict_get TIMER_PERIODS period_key) as [p|]; cbn;
    [|split; [done|apply periods_only_refl]].
  destruct (bool_decide _); cbn; [|split; [done|apply periods_only_refl]].
  apply update_period_periods_only.
Qed.

Lemma update_timer_periods_for_stage_periods_only stage env w :
  let '(r, w') :=
    DeviceController._update_timer_periods_for_stage stage env w in
  r = Ok tt /\ periods_only w w'.
Proof.
  unfold DeviceController._update_timer_periods_for_stage. run.
  destruct (negb _); cbn; [split; [done|apply periods_only_refl]|].
  destruct (dict_get STAGE_TIMER_CONFIGS _) as [config|]; cbn.
  - apply update_periods_from_periods_only.
  - split; [done|apply periods_only_refl].
Qed.

Lemma update_timer_periods_for_substage_periods_only sub_stage env w :
  let '(r, w') :=
    DeviceController._update_timer_periods_for_substage sub_stage env w in
  r = Ok tt /\ periods_only w w'.
Proof.
  unfold DeviceController._update_timer_periods_for_substage. run.
  destruct (negb _); cbn; [split; [done|apply periods_only_refl]|].
  destruct (_ && _); cbn; [|split; [done|apply periods_only_refl]].
  destruct (dict_get STAGE_TIMER_CONFIGS _) as [config|]; cbn.
  - apply update_periods_from_periods_only.
  - split; [done|apply periods_only_refl].
Qed.

Lemma detector_only_refl d : detector_only d d.
Proof.
  exists (Device.power_supply_mode d), (Device.cv_cc_transition_time d),
    (Device.voltage_before_cc d), (Device.current_limit_reached d).
  destruct d; reflexivity.
Qed.

(** The measuring part of a tick (lines 472-481) never raises; it reads
    the instruments and may run the detector, and that is all. *)
Lemma update_stage_measure_spec current_limit env w :
  exists current_time voltage current temperature w1,
    DeviceController.update_stage_measure current_limit env w =
      (Ok (current_time, Some voltage, current, Some temperature), w1) /\
    detector_only (device_controller w) (device_controller w1) /\
    daq_controller w1 = daq_controller w /\
    timer_manager w1 = timer_manager w /\
    main_controller w1 = main_controller w /\
    ao_written w1 = ao_written w /\
    keithley_written w1 = keithley_written w /\
    clock_reads w < clock_reads w1 /\
    (current = None -> device_controller w1 = device_controller w) /\
    (current_read_fails env w = true -> current = None) /\
    (voltage_read_fails env w = true -> voltage = 0%float) /\
    (forall a b,
       daq_samples env (daq_reads w) = Some (a, b) ->
       voltage = (300 / 5 * ((0 + a + b) / 2))%float).
Proof.
  unfold DeviceController.update_stage_measure,
    DeviceController.get_measurements,
    DeviceController.read_sample_voltage_improved,
    DeviceController.read_keithley_current_improved,
    DeviceController._detect_cv_cc_transition.
  run.
  unfold current_read_fails, voltage_read_fails.
  destruct (daq_samples env (daq_reads w)) as [[a b]|]; cbn;
    repeat case_cond;
    try (destruct (keithley_current_ua env (keithley_reads w)); cbn);
    repeat case_cond;
    do 5 eexists;
    (split; [reflexivity|]); cbn;
    (split; [first [apply detector_only_refl
                   | do 4 eexists; reflexivity]|]);
    repeat split; try reflexivity; try discriminate; try lia;
    try (intros ? ? [= ? ?]; subst; reflexivity);
    repeat match goal with
           | H : negb _ || negb _ = false |- _ =>
               apply orb_false_elim in H; destruct H as [H1 H2];
               apply negb_false_iff in H1, H2; rewrite ?H1, ?H2
           end;
    cbn; try discriminate; eval_closed; cbn; try discriminate.
Qed.

(** The measuring part of a tick, in full: the run time it computes, what
    each read answers, and what the detector is given. *)
Lemma update_stage_measure_reads current_limit env w :
  exists voltage current temperature w1,
    DeviceController.update_stage_measure current_limit env w =
      (Ok ((clock env (clock_reads w)
            - Device.start_time (device_controller w))%float,
           Some voltage, current, Some temperature), w1) /\
    detector_only (device_controller w) (device_controller w1) /\
    (current_read_fails env w = true -> current = None) /\
    (voltage_read_fails env w = true -> voltage = 0%float) /\
    (forall a b,
       daq_samples env (daq_reads w) = Some (a, b) ->
       voltage = (300 / 5 * ((0 + a + b) / 2))%float) /\
    device_controller w1 =
      match current with
      | Some c =>
          device_controller
            (DeviceController._detect_cv_cc_transition voltage c
               current_limit env (w <| clock_reads ::= S |>)).2
      | None => device_controller w
      end.
Proof.
  unfold DeviceController.update_stage_measure,
    DeviceController.get_measurements,
    DeviceController.read_sample_voltage_improved,
    DeviceController.read_keithley_current_improved,
    DeviceController._detect_cv_cc_transition.
  run.
  unfold current_read_fails, voltage_read_fails.
  destruct (daq_samples env (daq_reads w)) as [[a b]|]; cbn;
    repeat case_cond;
    try (destruct (keithley_current_ua env (keithley_reads w)); cbn);
    repeat case_cond;
    do 4 eexists;
    (split; [reflexivity|]); cbn;
    (split; [first [apply detector_only_refl
                   | do 4 eexists; reflexivity]|]);
    repeat split; try reflexivity; try discriminate;
    try (intros ? ? [= ? ?]; subst; reflexivity);
    repeat match goal with
           | H : negb _ || negb _ = false |- _ =>
               apply orb_false_elim in H; destruct H as [H1 H2];
               apply negb_false_iff in H1, H2; rewrite ?H1, ?H2
           end;
    cbn; try discriminate; eval_closed; cbn; try discriminate.
  all: repeat first [ progress cbn
                    | match goal with H : _ = _ |- _ => rewrite H end ];
    reflexivity.
Qed.

(** Using what is known about a call that is still folded in the goal. *)
Ltac step_call :=
  match goal with
  | |- context [DeviceController._update_timer_periods_for_stage ?s ?env ?w] =>
      let H := fresh "H" in
      pose proof (update_timer_periods_for_stage_periods_only s env w) as H;
      destruct (DeviceController._update_timer_periods_for_stage s env w)
        as [? ?];
      destruct H as [-> [? ->]]; cbn
  | |- context
         [DeviceController._update_timer_periods_for_substage ?s ?env ?w] =>
      let H := fresh "H" in
      pose proof (update_timer_periods_for_substage_periods_only s env w) as H;
      destruct (DeviceController._update_timer_periods_for_substage s env w)
        as [? ?];
      destruct H as [-> [? ->]]; cbn
  | |- context [DeviceController.stop_process ?env ?w] =>
      let H := fresh "H" in
      let w' := fresh "w" in
      pose proof (stop_process_spec env w) as H;
      destruct (DeviceController.stop_process env w) as [? w'];
      destruct w'; cbn in H;
      destruct H as (-> & -> & -> & -> & -> & -> & H); cbn
  | |- context [DeviceController.set_outputs ?v ?c ?env ?w] =>
      let H := fresh "H" in
      let w' := fresh "w" in
      let r := fresh "r" in
      pose proof (set_outputs_same_objects v c env w) as H;
      destruct (DeviceController.set_outputs v c env w) as [r w'] eqn:?;
      destruct w'; unfold same_objects in H; cbn in H;
      destruct H as (-> & -> & -> & -> & ->); destruct r as [[]|]; cbn
  end.

(** ** The stage order *)

(** What every call of [update_stage] keeps: the stage does not move back,
    and [flash_start_time] stays set. *)
Lemma update_stage_keeps
    dwell_time hold_current current_limit hold_time target_temperature env w :
  let w' :=
    (DeviceController.update_stage dwell_time hold_current current_limit
       hold_time target_temperature env w).2 in
  STAGES (stage_of w) <= STAGES (stage_of w') /\
  (flash_start_set w -> flash_start_set w').
Proof.
  unfold DeviceController.update_stage, flash_start_set. run.
  destruct (Device.is_running (device_controller w)); cbn; [|done].
  destruct (update_stage_measure_spec current_limit env w)
    as (current_time & voltage & current & temperature & w1 & -> & Hdet & _).
  cbn. unfold stage_of at 1.
  destruct Hdet as (mode & time & v & reached & Hdet).
  destruct w1 as [daq1 d1 tm1 mc1 ? ? ? ? ? ? ? ? ? ?]. cbn in Hdet. subst d1.
  cbn.
  destruct (Device.current_stage (device_controller w)) eqn:Hstage; cbn.
  - unfold DeviceController.dwell_stage. run.
    repeat first [step_call | case_cond]; cbn; (split; [lia|done]).
  - unfold DeviceController.incubation_stage,
      DeviceController.recent_cv_cc_transition,
      DeviceController.enter_flash.
    run.
    destruct time; cbn;
      repeat first [step_call | case_cond]; cbn; (split; [lia|done]).
  - unfold DeviceController.flash_stage. run.
    destruct (Device.last_flash_log_time (device_controller w)); cbn;
      repeat first [step_call | case_cond]; cbn; (split; [lia|done]).
  - unfold DeviceController.hold_stage. run.
    destruct (Device.flash_start_time (device_controller w)); cbn;
      destruct (Device.last_hold_log_time (device_controller w)); cbn;
      repeat first [step_call | case_cond]; cbn; (split; [lia|done]).
  - unfold DeviceController.shutdown_stage. run.
    repeat first [step_call | case_cond]; cbn; (split; [lia|done]).
Qed.

Lemma get_measurements_device env w :
  device_controller (DeviceController.get_measurements env w).2 =
  device_controller w.
Proof.
  unfold DeviceController.get_measurements,
    DeviceController.read_sample_voltage_improved,
    DeviceController.read_keithley_current_improved.
  run.
  destruct (daq_samples env (daq_reads w)) as [[a b]|]; cbn;
    repeat case_cond;
    try (destruct (keithley_current_ua env (keithley_reads w)); cbn);
    reflexivity.
Qed.

Lemma stop_all_device env w :
  device_controller (TimerManager.stop_all env w).2 = device_controller w.
Proof.
  unfold TimerManager.stop_all. run.
  match goal with
  | |- context [for_each ?xs ?body env ?w1] =>
      pose proof (for_each_keeps
                    (fun w w' => device_controller w' = device_controller w)
                    xs body) as H;
      cbn in H; specialize (H (fun _ => eq_refl))
  end.
  match type of H with
  | ?A -> _ => assert (Htrans : A) by (intros ? ? ? H1 H2; congruence)
  end.
  specialize (H Htrans). clear Htrans.
  match type of H with
  | ?A -> _ =>
      assert (Hbody : A);
      [ intros name env' w'; unfold TimerManager.join; run;
        destruct (Timers.threads (timer_manager w') !! name) as [[?|]|];
        cbn; done
      | specialize (H Hbody env); clear Hbody ]
  end.
  match goal with
  | |- context [for_each ?xs ?body env ?w1] =>
      specialize (H w1); destruct (for_each xs body env w1) as [r w2];
      destruct H as [_ H]; cbn in *; rewrite H; reflexivity
  end.
Qed.

(** An operation that leaves the device controller's stage and flash
    start time as they were keeps what [update_stage] keeps. *)
Lemma keeps_of_same_device (w w' : World) :
  Device.current_stage (device_controller w') =
    Device.current_stage (device_controller w) ->
  Device.flash_start_time (device_controller w') =
    Device.flash_start_time (device_controller w) ->
  STAGES (stage_of w) <= STAGES (stage_of w') /\
  (flash_start_set w -> flash_start_set w').
Proof.
  unfold stage_of, flash_start_set. intros -> ->. split; [lia|done].
Qed.

Lemma data_timer_callback_device env w :
  device_controller (MainController.data_timer_callback env w).2 =
  device_controller w.
Proof.
  unfold MainController.data_timer_callback. run.
  destruct (Device.is_running (device_controller w)); cbn; [|done].
  pose proof (get_measurements_device env w) as H.
  destruct (DeviceController.get_measurements env w) as [[?|?] w1];
    cbn in *; exact H.
Qed.

Lemma perform_keeps o env w :
  let w' := (perform o env w).2 in
  STAGES (stage_of w) <= STAGES (stage_of w') /\
  (flash_start_set w -> flash_start_set w').
Proof.
  destruct o as [cb| | | | | | | |]; cbn [perform].
  - destruct cb; cbn [MainController.call];
      try (change (MainController.display_timer_callback)
             with MainController.data_timer_callback);
      try (change (MainController.temperature_timer_callback)
             with MainController.data_timer_callback);
      try (apply keeps_of_same_device; rewrite data_timer_callback_device;
           reflexivity).
    unfold MainController.control_timer_callback. run.
    destruct (Device.is_running (device_controller w)); cbn; [|done].
    apply update_stage_keeps.
  - apply update_stage_keeps.
  - pose proof (stop_process_spec env w) as H.
    destruct (DeviceController.stop_process env w) as [r w'].
    destruct H as (_ & H & _). cbn.
    apply keeps_of_same_device; rewrite H; reflexivity.
  - unfold MainController.stop_experiment. run.
    pose proof (stop_process_spec env w) as H.
    destruct (DeviceController.stop_process env w) as [r w'].
    destruct H as (-> & H & _). cbn.
    apply keeps_of_same_device; rewrite stop_all_device, H; reflexivity.
  - unfold MainController.update_hold_time. run. done.
  - unfold MainController.update_parameters,
      DeviceController.set_voltage_current_limits.
    run. done.
  - unfold DeviceController.set_voltage_current_limits. run. done.
  - pose proof (set_outputs_same_objects voltage current env w) as [H _].
    apply keeps_of_same_device; rewrite H; reflexivity.
  - run. pose proof (get_measurements_device env w) as H.
    destruct (DeviceController.get_measurements env w) as [[?|?] w1];
      cbn in *; apply keeps_of_same_device; rewrite H; reflexivity.
Qed.

Lemma perform_all_keeps env ops w :
  let w' := perform_all env ops w in
  STAGES (stage_of w) <= STAGES (stage_of w') /\
  (flash_start_set w -> flash_start_set w').
Proof.
  revert w. induction ops as [|o ops IH]; intros w; cbn; [done|].
  destruct (perform_keeps o env w) as [H1 H2].
  destruct (IH (perform o env w).2) as [H3 H4].
  split; [lia|auto].
Qed.

(** What [start_process] does to the stage and the flash start time. *)
Lemma start_process_stage voltage current env w :
  let '(r, w') := DeviceController.start_process voltage current env w in
  match r with
  | Ok _ => stage_of w' = DWELL
  | Raise _ => stage_of w' = stage_of w
  end /\
  Device.flash_start_time (device_controller w') =
    Device.flash_start_time (device_controller w).
Proof.
  unfold DeviceController.start_process,
    DeviceController.check_device_connections,
    DeviceController.reset_cv_cc_tracking,
    DeviceController.set_voltage_current_limits,
    DeviceController.apply_voltage_current_limits,
    DAQController.set_outputs, DAQController.ao_task_write,
    DeviceController.keithley_write, stage_of.
  run.
  destruct (connections env (connection_checks w)) as [daq keithley]; cbn.
  repeat case_cond; split; reflexivity.
Qed.

(** From construction on, [flash_start_time] is never [None]: the
    fallback of lines 560-562 is not taken. *)
Lemma flash_start_time_always_set
    env env0 steps daq_ao_task daq_keithley keithley :
  flash_start_set
    (lifetime env steps
       (MainController.__init__ daq_ao_task daq_keithley keithley env0)).
Proof.
  assert (H0 : flash_start_set
                 (MainController.__init__ daq_ao_task daq_keithley keithley
                    env0))
    by (exists 0%float; reflexivity).
  revert H0.
  generalize (MainController.__init__ daq_ao_task daq_keithley keithley env0).
  induction steps as [|[o|[voltage current]] steps IH]; intros w Hw; cbn.
  - exact Hw.
  - apply IH. apply (perform_keeps o env w). exact Hw.
  - apply IH. pose proof (start_process_stage voltage current env w) as H.
    destruct (DeviceController.start_process voltage current env w) as [r w'].
    destruct H as [_ H]. unfold flash_start_set in *. cbn. rewrite H. exact Hw.
Qed.

(** C6: during a run the stage never moves back in the order DWELL <
    INCUBATION < FLASH < HOLD < SHUTDOWN: whatever sequence of ticks, calls
    of [update_stage], stops and parameter changes is performed, the stage
    number at the end is at least the one at the beginning.  [stop_process]
    leaves the stage where it is, and [start_process] is the operation
    that sets it to DWELL (when it refuses to start, the stage is left). *)
Theorem stage_never_regresses env ops voltage current w :
  STAGES (stage_of w) <= STAGES (stage_of (perform_all env ops w)) /\
  stage_of (DeviceController.stop_process env w).2 = stage_of w /\
  (let '(r, w') := DeviceController.start_process voltage current env w in
   match r with
   | Ok _ => stage_of w' = DWELL
   | Raise _ => stage_of w' = stage_of w
   end).
Proof.
  split; [|split].
  - apply perform_all_keeps.
  - pose proof (stop_process_spec env w) as H. unfold stage_of.
    destruct (DeviceController.stop_process env w) as [r w'].
    destruct H as (_ & H & _). cbn. rewrite H. reflexivity.
  - pose proof (start_process_stage voltage current env w) as H.
    destruct (DeviceController.start_process voltage current env w)
      as [r w'].
    apply H.
Qed.

(** ** Hold-time termination ([update_stage] in stage HOLD) *)




(** ** Flash onset ([update_stage] in stage INCUBATION) *)

(** C3 as stated fails, twice.  A current of 90 mA is at least
    0.9 * 100 mA, no transition was reported, and the tick leaves the
    stage at INCUBATION.  And after a CV-to-CC transition reported while
    the stage was still DWELL, the next tick, a few hundredths of a second
    later, finds the current back at 70 mA: the mode returns to CV and the
    stage stays INCUBATION, although the transition is less than 1.0 s
    old. *)
Lemma incubation_triggers_counterexample :
  (let env := steady 50 1 90000 in
   (DeviceController.update_stage_measure 100 env incubating).1 =
     Ok (50, Some 60, Some 90, Some 0)%float /\
   ge 90 (0.9 * 100) = true /\
   stage_of
     (DeviceController.update_stage 0 60 100 60 None env incubating).2 =
     INCUBATION) /\
  (let w1 :=
     (DeviceController.update_stage 0 60 100 60 None dropping dwelling).2 in
   let w2 := (DeviceController.update_stage 0 60 100 60 None dropping w1).2 in
   stage_of w1 = INCUBATION /\
   logged w1 = [EnteringIncubation; CvToCcTransitionDetected] /\
   Device.cv_cc_transition_time (device_controller w2) = Some 50.01%float /\
   lt (clock dropping (clock_reads w2) - 50.01) 1.0 = true /\
   stage_of w2 = INCUBATION).
Proof. vm_compute. repeat split; reflexivity. Qed.

(** C3, amended: on a running tick in stage INCUBATION, once the detector
    has run, the stage advances to FLASH with [flash_start_time] set to a
    clock reading of that tick when the mode is CC and the recorded CV-to-CC
    transition time is less than 1.0 s old (the log says the transition
    triggered it, also when the threshold test holds as well); otherwise it
    advances to FLASH when the current was read, is not zero and is
    strictly above 0.9 * current_limit (the log says the threshold
    triggered it); otherwise the stage stays INCUBATION. *)
Theorem incubation_flash_triggers
    dwell_time hold_current current_limit hold_time target_temperature env w :
  Device.is_running (device_controller w) = true ->
  stage_of w = INCUBATION ->
  let '(m, w1) := DeviceController.update_stage_measure current_limit env w in
  let '(r, w') :=
    DeviceController.update_stage dwell_time hold_current current_limit
      hold_time target_temperature env w in
  let d' := device_controller w' in
  if transition_trigger env w1 then
    stage_of w' = FLASH /\
    (exists now,
       read_during env w1 w' now /\ Device.flash_start_time d' = Some now) /\
    logged w' = EnteringFlashByTransition :: logged w1 /\
    (is_Some (Device.voltage_before_cc (device_controller w1)) -> r = Ok tt)
  else if threshold_trigger (measured_current m) current_limit then
    r = Ok tt /\
    stage_of w' = FLASH /\
    (exists now,
       read_during env w1 w' now /\ Device.flash_start_time d' = Some now) /\
    logged w' = EnteringFlashByThreshold :: logged w1
  else
    r = Ok tt /\
    stage_of w' = INCUBATION /\
    Device.flash_start_time d' =
      Device.flash_start_time (device_controller w) /\
    logged w' = logged w1.
Proof.
  intros Hrun Hstage. unfold stage_of in *.
  unfold DeviceController.update_stage. run. rewrite Hrun. cbn.
  destruct (update_stage_measure_spec current_limit env w)
    as (current_time & voltage & current & temperature & w1 & -> & Hdet & _).
  cbn.
  destruct Hdet as (mode & time & v & reached & Hdet).
  destruct w1 as [daq1 d1 tm1 mc1 ao1 kw1 lg1 sl1 clk1 aw1 kws1 dr1 kr1 cc1].
  cbn in Hdet. subst d1. cbn. rewrite Hstage. cbn.
  unfold DeviceController.incubation_stage,
    DeviceController.recent_cv_cc_transition, DeviceController.enter_flash,
    transition_trigger, threshold_trigger.
  run.
  destruct time as [t|]; cbn.
  - destruct (bool_decide (mode = CC) && truthy t) eqn:Hcc; cbn.
    + destruct (lt (clock env clk1 - t) 1) eqn:Hrecent; cbn.
      * destruct v as [vb|]; cbn.
        -- step_call. split; [done|]. split; [|done].
           exists (clock env (S clk1)). split; [|done].
           exists (S clk1). cbn. split; [lia|done].
        -- split; [done|]. split; [|split; [done|]].
           ++ exists (clock env (S clk1)). split; [|done].
              exists (S clk1). cbn. split; [lia|done].
           ++ intros [? [=]].
      * destruct current as [c|]; cbn; [|done].
        destruct (truthy c && gt c (0.9 * current_limit)); cbn; [|done].
        step_call. split; [done|]. split; [done|]. split; [|done].
        exists (clock env (S clk1)). split; [|done].
        exists (S clk1). cbn. split; [lia|done].
    + destruct current as [c|]; cbn; [|done].
      destruct (truthy c && gt c (0.9 * current_limit)); cbn; [|done].
      step_call. split; [done|]. split; [done|]. split; [|done].
      exists (clock env clk1). split; [|done].
      exists clk1. cbn. split; [lia|done].
  - destruct current as [c|]; cbn; [|done].
    destruct (truthy c && gt c (0.9 * current_limit)); cbn; [|done].
    step_call. split; [done|]. split; [done|]. split; [|done].
    exists (clock env clk1). split; [|done].
    exists clk1. cbn. split; [lia|done].
Qed.

Lemma incubation_flash_triggers_witness :
  let '(m, w1) :=
    DeviceController.update_stage_measure 100 (steady 50 0.25 96000)
      incubating in
  let '(r, w') :=
    DeviceController.update_stage 0 60 100 60 None (steady 50 0.25 96000)
      incubating in
  let d' := device_controller w' in
  if transition_trigger (steady 50 0.25 96000) w1 then
    stage_of w' = FLASH /\
    (exists now,
       read_during (steady 50 0.25 96000) w1 w' now /\
       Device.flash_start_time d' = Some now) /\
    logged w' = EnteringFlashByTransition :: logged w1 /\
    (is_Some (Device.voltage_before_cc (device_controller w1)) -> r = Ok tt)
  else if threshold_trigger (measured_current m) 100 then
    r = Ok tt /\
    stage_of w' = FLASH /\
    (exists now,
       read_during (steady 50 0.25 96000) w1 w' now /\
       Device.flash_start_time d' = Some now) /\
    logged w' = EnteringFlashByThreshold :: logged w1
  else
    r = Ok tt /\
    stage_of w' = INCUBATION /\
    Device.flash_start_time d' =
      Device.flash_start_time (device_controller incubating) /\
    logged w' = logged w1.
Proof.
  exact (incubation_flash_triggers 0 60 100 60 None (steady 50 0.25 96000)
           incubating eq_refl eq_refl).
Defined.

(** ** Failed reads ([update_stage], [get_measurements]) *)

(** C5 as stated fails: on a tick where the voltage read and the current
    read both fail, the stage logic is given 0.0 in place of the voltage,
    and the stage advances from DWELL to INCUBATION. *)
Lemma failed_read_counterexample :
  let env := unreadable 20 in
  voltage_read_fails env dwelling = true /\
  current_read_fails env dwelling = true /\
  (DeviceController.update_stage_measure 100 env dwelling).1 =
    Ok (20, Some 0, None, Some 0)%float /\
  stage_of dwelling = DWELL /\
  stage_of (DeviceController.update_stage 10 60 100 60 None env dwelling).2 =
    INCUBATION.
Proof. vm_compute. repeat split; reflexivity. Qed.

(** A data tick never raises and leaves the device controller alone. *)
Lemma data_timer_callback_spec env w :
  let '(r, w') := MainController.data_timer_callback env w in
  r = Ok tt /\ device_controller w' = device_controller w.
Proof.
  unfold MainController.data_timer_callback. run.
  destruct (Device.is_running (device_controller w)); cbn; [|done].
  unfold DeviceController.get_measurements,
    DeviceController.read_sample_voltage_improved,
    DeviceController.read_keithley_current_improved.
  run.
  destruct (daq_samples env (daq_reads w)) as [[a b]|]; cbn;
    repeat case_cond;
    try (destruct (keithley_current_ua env (keithley_reads w)); cbn);
    done.
Qed.

(** C5, amended: no tick is skipped on a failed read.  A control tick
    always measures and gives the result to the detector and the stage
    logic.  A voltage read that fails is replaced by 0.0, and a voltage
    that was read is passed on as scaled, without a range check.  When the
    current was read, the CV/CC detector is run with these values (with
    0.0 V after a failed voltage read).  A current read that fails gives
    [None]: then the detector is not run and the device controller is as
    before the measurement.  The stage logic then runs as on any tick:
    from DWELL the stage stays or moves to INCUBATION (with no target
    temperature, exactly when the run time is above the dwell time); from
    INCUBATION it moves to FLASH exactly when the transition test of lines
    504-506 holds (mode CC and a recorded, non-zero transition time less
    than 1.0 s before the clock reading of that test) or the threshold
    test of line 519 holds (a current that was read, is not zero and is
    strictly above 0.9 * current_limit), so after a failed current read by
    the transition test alone; from FLASH it moves to HOLD only with a
    current that was read; HOLD and SHUTDOWN keep their stage.  A data
    tick never raises and changes nothing of the device controller. *)
Theorem failed_read_tick
    dwell_time hold_current current_limit hold_time target_temperature env w :
  Device.is_running (device_controller w) = true ->
  let '(m, w1) := DeviceController.update_stage_measure current_limit env w in
  (is_ok m = true /\
   is_Some (measured_voltage m) /\
   (voltage_read_fails env w = true -> measured_voltage m = Some 0%float) /\
   (forall a b,
      daq_samples env (daq_reads w) = Some (a, b) ->
      measured_voltage m = Some (300 / 5 * ((0 + a + b) / 2))%float) /\
   (current_read_fails env w = true -> measured_current m = None) /\
   device_controller w1 =
     match measured_voltage m, measured_current m with
     | Some voltage, Some current =>
         device_controller
           (DeviceController._detect_cv_cc_transition voltage current
              current_limit env (w <| clock_reads ::= S |>)).2
     | _, _ => device_controller w
     end) /\
  (let '(r, w') :=
     DeviceController.update_stage dwell_time hold_current current_limit
       hold_time target_temperature env w in
   match stage_of w with
   | DWELL =>
       (stage_of w' = DWELL \/ stage_of w' = INCUBATION) /\
       (truthy_opt target_temperature = false ->
        stage_of w' =
          if gt (clock env (clock_reads w)
                 - Device.start_time (device_controller w)) dwell_time
          then INCUBATION else DWELL)
   | INCUBATION =>
       stage_of w' =
         if transition_trigger env w1
            || threshold_trigger (measured_current m) current_limit
         then FLASH else INCUBATION
   | FLASH =>
       stage_of w' = FLASH \/
       (is_Some (measured_current m) /\ stage_of w' = HOLD)
   | HOLD => stage_of w' = HOLD
   | SHUTDOWN => stage_of w' = SHUTDOWN
   end) /\
  (forall w0,
     let '(r0, w0') := MainController.data_timer_callback env w0 in
     r0 = Ok tt /\ device_controller w0' = device_controller w0).
Proof.
  intros Hrun.
  destruct (update_stage_measure_reads current_limit env w)
    as (voltage & current & temperature & w1 & Heq & Hdet & Hnone & Hzero
        & Hraw & Hdev).
  unfold stage_of.
  unfold DeviceController.update_stage. run. rewrite Hrun. cbn.
  rewrite Heq. cbn.
  split; [|split; [|apply data_timer_callback_spec]].
  { split; [reflexivity|]. split; [eexists; reflexivity|].
    split; [intros Hv; rewrite (Hzero Hv); reflexivity|].
    split; [intros a b Hab; rewrite (Hraw a b Hab); reflexivity|].
    split; [exact Hnone|]. exact Hdev. }
  clear Hnone Hzero Hraw Hdev Heq.
  destruct Hdet as (mode & time & v & reached & Hdet).
  destruct w1 as [daq1 d1 tm1 mc1 ao1 kw1 lg1 sl1 clk1 aw1 kws1 dr1 kr1 cc1].
  cbn in Hdet. subst d1. cbn.
  destruct (Device.current_stage (device_controller w)) eqn:Hstage; cbn.
  - unfold DeviceController.dwell_stage. run.
    destruct (truthy_opt target_temperature) eqn:Htarget; cbn;
      repeat first [step_call | case_cond]; cbn;
      (split; [auto|]); first [discriminate | intros _; reflexivity].
  - unfold DeviceController.incubation_stage,
      DeviceController.recent_cv_cc_transition, DeviceController.enter_flash,
      transition_trigger, threshold_trigger.
    run.
    destruct time as [t|]; cbn.
    + destruct (bool_decide (mode = CC) && truthy t); cbn.
      * destruct (lt (clock env clk1 - t) 1); cbn.
        -- destruct v; cbn; repeat step_call; reflexivity.
        -- destruct current as [c|]; cbn; [|reflexivity].
           destruct (truthy c && gt c (0.9 * current_limit)); cbn;
             repeat step_call; reflexivity.
      * destruct current as [c|]; cbn; [|reflexivity].
        destruct (truthy c && gt c (0.9 * current_limit)); cbn;
          repeat step_call; reflexivity.
    + destruct current as [c|]; cbn; [|reflexivity].
      destruct (truthy c && gt c (0.9 * current_limit)); cbn;
        repeat step_call; reflexivity.
  - unfold DeviceController.flash_stage. run.
    destruct current as [c|]; cbn;
      destruct (Device.last_flash_log_time (device_controller w)); cbn;
      repeat first [step_call | case_cond]; cbn; eauto 10;
      try match goal with
      | H : _ && false = true |- _ => rewrite andb_false_r in H; discriminate H
      end.
  - unfold DeviceController.hold_stage. run.
    destruct (Device.flash_start_time (device_controller w)); cbn;
      destruct (Device.last_hold_log_time (device_controller w)); cbn;
      repeat first [step_call | case_cond]; cbn; auto 10.
  - unfold DeviceController.shutdown_stage. run.
    repeat first [step_call | case_cond]; cbn; auto 10.
Qed.

(** A tick on which the voltage read alone fails: the detector is given
    0.0 V with the 96 mA that were read, records 0.0 as the voltage before
    the transition, and the stage moves from INCUBATION to FLASH. *)
Lemma voltage_read_failure_tick :
  let env := voltage_unreadable 50 0.25 96000 in
  voltage_read_fails env incubating = true /\
  current_read_fails env incubating = false /\
  (DeviceController.update_stage_measure 100 env incubating).1 =
    Ok (50, Some 0, Some 96, Some 0)%float /\
  let w' := (DeviceController.update_stage 0 60 100 60 None env incubating).2 in
  stage_of w' = FLASH /\
  Device.voltage_before_cc (device_controller w') = Some 0%float.
Proof. vm_compute. repeat split; reflexivity. Qed.

Lemma failed_read_tick_witness :
  let '(m, w1) :=
    DeviceController.update_stage_measure 100
      (voltage_unreadable 50 0.25 96000) incubating in
  (is_ok m = true /\
   is_Some (measured_voltage m) /\
   (voltage_read_fails (voltage_unreadable 50 0.25 96000) incubating = true ->
    measured_voltage m = Some 0%float) /\
   (forall a b,
      daq_samples (voltage_unreadable 50 0.25 96000) (daq_reads incubating)
        = Some (a, b) ->
      measured_voltage m = Some (300 / 5 * ((0 + a + b) / 2))%float) /\
   (current_read_fails (voltage_unreadable 50 0.25 96000) incubating = true ->
    measured_current m = None) /\
   device_controller w1 =
     match measured_voltage m, measured_current m with
     | Some voltage, Some current =>
         device_controller
           (DeviceController._detect_cv_cc_transition voltage current
              100 (voltage_unreadable 50 0.25 96000)
              (incubating <| clock_reads ::= S |>)).2
     | _, _ => device_controller incubating
     end) /\
  (let '(r, w') :=
     DeviceController.update_stage 0 60 100 60 None
       (voltage_unreadable 50 0.25 96000) incubating in
   match stage_of incubating with
   | DWELL =>
       (stage_of w' = DWELL \/ stage_of w' = INCUBATION) /\
       (truthy_opt None = false ->
        stage_of w' =
          if gt (clock (voltage_unreadable 50 0.25 96000)
                   (clock_reads incubating)
                 - Device.start_time (device_controller incubating)) 0
          then INCUBATION else DWELL)
   | INCUBATION =>
       stage_of w' =
         if transition_trigger (voltage_unreadable 50 0.25 96000) w1
            || threshold_trigger (measured_current m) 100
         then FLASH else INCUBATION
   | FLASH =>
       stage_of w' = FLASH \/
       (is_Some (measured_current m) /\ stage_of w' = HOLD)
   | HOLD => stage_of w' = HOLD
   | SHUTDOWN => stage_of w' = SHUTDOWN
   end) /\
  (forall w0,
     let '(r0, w0') :=
       MainController.data_timer_callback (voltage_unreadable 50 0.25 96000)
         w0 in
     r0 = Ok tt /\ device_controller w0' = device_controller w0).
Proof.
  exact (failed_read_tick 0 60 100 60 None (voltage_unreadable 50 0.25 96000)
           incubating eq_refl).
Defined.

(** * Further properties of the code *)

(** ** Starting and stopping timers ([TimerManager]) *)


Lemma with_threads_same w : w = with_threads w (Timers.threads (timer_manager w)).
Proof. destruct w as [? ? [] ?]; reflexivity. Qed.

Arguments stop_all_body : simpl never.

(** The loop of [stop_all] over a list of names: the handles of these
    names are dropped, and nothing else changes. *)
Lemma stop_all_loop names env w :
  exists threads,
    for_each names stop_all_body env w = (Ok tt, with_threads w threads) /\
    forall name,
      threads !! name =
        if bool_decide (name ∈ names)
        then (fun _ => None) <$> Timers.threads (timer_manager w) !! name
        else Timers.threads (timer_manager w) !! name.
Proof.
  revert w. induction names as [|n names IH]; intros w.
  - exists (Timers.threads (timer_manager w)). split.
    + cbn. rewrite <- with_threads_same. reflexivity.
    + intros name. reflexivity.
  - cbn [for_each]. run. unfold stop_all_body at 1, TimerManager.join. run.
    assert (Hrest : forall w1,
              Timers.threads (timer_manager w1) !! n = Some None ->
              (forall name, name <> n ->
                 Timers.threads (timer_manager w1) !! name =
                 Timers.threads (timer_manager w) !! name) ->
              forall (threads : gmap string (option thread)) name,
                threads !! name =
                  (if bool_decide (name ∈ names)
                   then (fun _ => None) <$>
                          Timers.threads (timer_manager w1) !! name
                   else Timers.threads (timer_manager w1) !! name) ->
                is_Some (Timers.threads (timer_manager w) !! n) ->
                threads !! name =
                  if bool_decide (name ∈ n :: names)
                  then (fun _ => None) <$>
                         Timers.threads (timer_manager w) !! name
                  else Timers.threads (timer_manager w) !! name).
    { intros w1 H1 Hother threads name -> [x Hx].
      destruct (decide (name = n)) as [->|Hne].
      - rewrite H1, Hx.
        rewrite (bool_decide_eq_true_2 (n ∈ n :: names)) by apply list_elem_of_here.
        destruct (bool_decide (n ∈ names)); reflexivity.
      - rewrite (Hother name Hne).
        destruct (decide (name ∈ names)).
        + rewrite !bool_decide_eq_true_2 by (rewrite ?elem_of_cons; auto). reflexivity.
        + rewrite !bool_decide_eq_false_2 by (rewrite ?elem_of_cons; tauto). reflexivity. }
    destruct (Timers.threads (timer_manager w) !! n) as [[th|]|] eqn:Hn; cbn.
    + match goal with
      | |- context [for_each names stop_all_body env ?w1] =>
          destruct (IH w1) as (threads & -> & Hth);
          specialize (Hrest w1)
      end.
      exists threads. split; [reflexivity|].
      intros name. apply Hrest; cbn; eauto.
      * apply lookup_insert_eq.
      * intros name' Hne. rewrite !lookup_insert_ne by congruence. reflexivity.
    + destruct (IH w) as (threads & -> & Hth).
      exists threads. split; [reflexivity|].
      intros name. apply (Hrest w); eauto.
    + destruct (IH w) as (threads & -> & Hth).
      exists threads. split; [reflexivity|].
      intros name. rewrite Hth.
      destruct (decide (name = n)) as [->|Hne].
      * rewrite Hn. destruct (bool_decide _), (bool_decide _); reflexivity.
      * destruct (decide (name ∈ names)).
        -- rewrite !bool_decide_eq_true_2 by (rewrite ?elem_of_cons; auto). reflexivity.
        -- rewrite !bool_decide_eq_false_2 by (rewrite ?elem_of_cons; tauto). reflexivity.
Qed.

Lemma elem_of_keys {V} (d : gmap string V) name :
  name ∈ TimerManager.keys d <-> is_Some (d !! name).
Proof.
  unfold TimerManager.keys. rewrite list_elem_of_fmap. split.
  - intros [[k v] [-> Hkv]]. apply elem_of_map_to_list in Hkv. eauto.
  - intros [v Hv]. exists (name, v). split; [reflexivity|].
    apply elem_of_map_to_list. exact Hv.
Qed.

(** X2: [stop_all] never raises; it clears the [running] flag and drops
    every thread handle, and changes nothing else: the timers stay
    registered with their periods and callbacks. *)
Theorem stop_all_stops_every_timer env w :
  let '(r, w') := TimerManager.stop_all env w in
  r = Ok tt /\
  exists threads,
    w' = with_threads
           (w <| timer_manager ::= fun t => t <| Timers.running := false |> |>)
           threads /\
    (forall name,
       threads !! name =
         (fun _ => None) <$> Timers.threads (timer_manager w) !! name) /\
    forall call fuel name,
      TimerManager._timer_loop call fuel name env w' = (Ok true, w').
Proof.
  unfold TimerManager.stop_all. run.
  match goal with
  | |- context [for_each ?names ?body env ?w1] =>
      destruct (stop_all_loop names env w1) as (threads & Hloop & Hth);
      change (for_each names body env w1)
        with (for_each names stop_all_body env w1)
  end.
  rewrite Hloop. split; [reflexivity|].
  exists threads. split; [reflexivity|]. split.
  - intros name. rewrite Hth. cbn.
    destruct (Timers.threads (timer_manager w) !! name) as [th|] eqn:Hn.
    + rewrite bool_decide_eq_true_2; [reflexivity|].
      apply elem_of_keys. eauto.
    + destruct (bool_decide _); reflexivity.
  - intros call [|fuel] name; reflexivity.
Qed.

(** The loop of [start_all] over names that are registered: each of them
    has a live thread afterwards, and nothing else changes. *)
Lemma start_all_loop names env w :
  (forall name,
     name ∈ names ->
     is_Some (Timers.timers (timer_manager w) !! name) /\
     is_Some (Timers.threads (timer_manager w) !! name)) ->
  exists threads : gmap string (option thread),
    for_each names TimerManager.start_timer env w =
      (Ok tt, with_threads w threads) /\
    (forall name,
       name ∈ names ->
       exists th, threads !! name = Some (Some th) /\ is_alive th = true) /\
    (forall name,
       name ∉ names ->
       threads !! name = Timers.threads (timer_manager w) !! name) /\
    (forall name,
       is_Some (Timers.threads (timer_manager w) !! name) ->
       is_Some (threads !! name)).
Proof.
  revert w. induction names as [|n names IH]; intros w Hreg.
  - exists (Timers.threads (timer_manager w)). split; [|split; [|split]].
    + cbn. rewrite <- with_threads_same. reflexivity.
    + intros name Hin. apply elem_of_nil in Hin. destruct Hin.
    + reflexivity.
    + auto.
  - destruct (Hreg n (list_elem_of_here _ _)) as [[p Hp] [h Hh]].
    (* the call for [n] leaves a live thread for [n] and touches no other *)
    assert (Hn : exists w1,
               TimerManager.start_timer n env w = (Ok tt, w1) /\
               w1 = with_threads w (Timers.threads (timer_manager w1)) /\
               (exists th, Timers.threads (timer_manager w1) !! n
                           = Some (Some th) /\ is_alive th = true) /\
               forall name, name <> n ->
                 Timers.threads (timer_manager w1) !! name =
                 Timers.threads (timer_manager w) !! name).
    { unfold TimerManager.start_timer, TimerManager.spawn. run.
      rewrite Hp, Hh. cbn.
      destruct h as [[[]]|]; cbn; eexists; (split; [reflexivity|]); cbn.
      - split; [apply with_threads_same|]. split; [eauto|]. reflexivity.
      - split; [reflexivity|]. split.
        + eexists. rewrite lookup_insert_eq. split; reflexivity.
        + intros name Hne. rewrite lookup_insert_ne by congruence.
          reflexivity.
      - split; [reflexivity|]. split.
        + eexists. rewrite lookup_insert_eq. split; reflexivity.
        + intros name Hne. rewrite lookup_insert_ne by congruence.
          reflexivity. }
    destruct Hn as (w1 & Hstart & Hw1 & Hlive & Hother).
    assert (Htimers : Timers.timers (timer_manager w1)
                      = Timers.timers (timer_manager w))
      by (rewrite Hw1; reflexivity).
    destruct (IH w1) as (threads & Hloop & Hin & Hout & Hsome).
    { intros name Hname. destruct (Hreg name) as [Ht Hth];
        [apply list_elem_of_further; exact Hname|].
      rewrite Htimers. split; [exact Ht|].
      destruct (decide (name = n)) as [->|Hne].
      - destruct Hlive as (th & -> & _). eauto.
      - rewrite (Hother name Hne). exact Hth. }
    exists threads. split; [|split; [|split]].
    + cbn [for_each]. unfold mbind, M_bind, bind. rewrite Hstart, Hloop.
      rewrite Hw1. reflexivity.
    + intros name Hname. apply elem_of_cons in Hname.
      destruct (decide (name ∈ names)) as [Hin'|Hnin]; [auto|].
      destruct Hname as [->|?]; [|contradiction].
      rewrite (Hout n Hnin). exact Hlive.
    + intros name Hname. rewrite not_elem_of_cons in Hname.
      destruct Hname as [Hne Hnin]. rewrite (Hout name Hnin).
      apply Hother. exact Hne.
    + intros name Hname. apply Hsome.
      destruct (decide (name = n)) as [->|Hne].
      * destruct Hlive as (th & -> & _). eauto.
      * rewrite (Hother name Hne). exact Hname.
Qed.

(** X3: when every registered timer has an entry for its thread,
    [start_all] never raises; it sets the [running] flag and leaves every
    registered timer with a live thread, and changes nothing else. *)
Theorem start_all_starts_every_timer env w :
  (forall name,
     is_Some (Timers.timers (timer_manager w) !! name) ->
     is_Some (Timers.threads (timer_manager w) !! name)) ->
  let '(r, w') := TimerManager.start_all env w in
  r = Ok tt /\
  exists threads,
    w' = with_threads
           (w <| timer_manager ::= fun t => t <| Timers.running := true |> |>)
           threads /\
    (forall name,
       is_Some (Timers.timers (timer_manager w) !! name) ->
       exists th, threads !! name = Some (Some th) /\ is_alive th = true) /\
    (forall name,
       Timers.timers (timer_manager w) !! name = None ->
       threads !! name = Timers.threads (timer_manager w) !! name).
Proof.
  intros Hreg. unfold TimerManager.start_all. run.
  match goal with
  | |- context [for_each ?names TimerManager.start_timer env ?w1] =>
      destruct (start_all_loop names env w1)
        as (threads & Hloop & Hin & Hout & _)
  end.
  { intros name Hname. apply elem_of_keys in Hname. cbn in *. auto. }
  rewrite Hloop. split; [reflexivity|].
  exists threads. split; [reflexivity|]. split.
  - intros name Hname. apply Hin. apply elem_of_keys. exact Hname.
  - intros name Hname. apply Hout. rewrite elem_of_keys. cbn.
    rewrite Hname. intros [? [=]].
Qed.

Lemma start_all_starts_every_timer_witness :
  let '(r, w') := TimerManager.start_all (steady 0 1 0) world0 in
  r = Ok tt /\
  exists threads,
    w' = with_threads
           (world0 <| timer_manager ::=
                        fun t => t <| Timers.running := true |> |>)
           threads /\
    (forall name,
       is_Some (Timers.timers (timer_manager world0) !! name) ->
       exists th, threads !! name = Some (Some th) /\ is_alive th = true) /\
    (forall name,
       Timers.timers (timer_manager world0) !! name = None ->
       threads !! name = Timers.threads (timer_manager world0) !! name).
Proof.
  apply (start_all_starts_every_timer (steady 0 1 0) world0).
  intros name.
  change (Timers.timers (timer_manager world0))
    with (<["temperature" := 1%float]>
            (<["display" := 0.5%float]>
               (<["data" := 0.1%float]>
                  (<["control" := 0.1%float]> (∅ : gmap string float))))).
  change (Timers.threads (timer_manager world0))
    with (<["temperature" := None]>
            (<["display" := None]>
               (<["data" := None]>
                  (<["control" := None]>
                     (∅ : gmap string (option thread)))))).
  intros H.
  repeat (apply lookup_insert_is_Some' in H;
          destruct H as [<-|H];
          [rewrite ?lookup_insert_eq,
             ?(lookup_insert_ne (M := gmap string)) by discriminate; eauto|]).
  apply lookup_empty_is_Some in H. destruct H.
Defined.

(** Closing a case whose tests contradict each other. *)
Ltac conflicting_conds :=
  exfalso;
  repeat match goal with
         | H : negb _ = false |- _ => apply negb_false_iff in H
         | H : negb _ = true |- _ => apply negb_true_iff in H
         end;
  repeat match goal with
         | H : ?c = _, H' : context [?c] |- _ => rewrite H in H'
         end;
  cbn in *; discriminate.

(** ** Starting a run ([DeviceController.start_process]) *)

(** X4: [start_process] refuses to start, with [RuntimeError] and nothing
    changed, unless the DAQ and the source-meter are both found connected.
    When they are, it always starts: it returns normally with
    [is_running] set, the stage at DWELL, the start time read from the
    clock, the CV/CC tracking and the hold-time flag reset and the limits
    stored, whether or not the limits could be applied.  Limits outside
    [0, 300] V or [0, 2000] mA are stored and the run is started with
    nothing written to the instruments. *)
Theorem start_process_starts_or_refuses voltage current env w :
  let '(daq, keithley) := connections env (connection_checks w) in
  let '(r, w') := DeviceController.start_process voltage current env w in
  let d' := device_controller w' in
  if (NIDAQMX_AVAILABLE env && daq) && (PYVISA_AVAILABLE env && keithley)
  then
    r = Ok tt /\
    Device.is_running d' = true /\
    Device.current_stage d' = DWELL /\
    Device.start_time d' = clock env (clock_reads w) /\
    Device.power_supply_mode d' = CV /\
    Device.cv_cc_transition_time d' = None /\
    Device.voltage_before_cc d' = None /\
    Device.current_limit_reached d' = false /\
    Device.experiment_stopped_by_hold_time d' = false /\
    Device.voltage_limit d' = voltage /\
    Device.current_limit d' = current /\
    (in_range voltage current = false ->
     ao_written w' = ao_written w /\
     keithley_written w' = keithley_written w)
  else
    r = Raise RuntimeError /\
    w' = w <| connection_checks ::= S |>.
Proof.
  unfold DeviceController.start_process,
    DeviceController.check_device_connections,
    DeviceController.reset_cv_cc_tracking,
    DeviceController.set_voltage_current_limits,
    DeviceController.apply_voltage_current_limits,
    DAQController.set_outputs, DAQController.ao_task_write,
    DeviceController.keithley_write, in_range.
  run.
  destruct (connections env (connection_checks w)) as [daq keithley]; cbn.
  destruct (NIDAQMX_AVAILABLE env && daq) eqn:Hd; cbn; [|done].
  destruct (PYVISA_AVAILABLE env && keithley) eqn:Hk; cbn; [|done].
  repeat case_cond; repeat split; try reflexivity; try discriminate;
    conflicting_conds.
Qed.

(** ** Writing the outputs ([DeviceController.set_outputs]) *)

(** X5: [DeviceController.set_outputs] writes the DAQ first and the
    source-meter second, and is not atomic.  When it returns, the scaled
    pair is on the analog outputs and the source-meter, if there is one,
    got the voltage and then the current in amperes.  When it raises, the
    exception is logged and raised again; an exception of the source-meter
    ([VisaIOError]) comes after the analog outputs were changed; any other
    one leaves both instruments as they were. *)
Theorem set_outputs_daq_then_keithley voltage current env w :
  let '(r, w') := DeviceController.set_outputs voltage current env w in
  let scaled :=
    ((voltage / VOLTAGE_SCALE_OUTPUT)%float,
     (current / (CURRENT_SCALE * 1000))%float) in
  match r with
  | Ok _ =>
      ao_written w' = scaled :: ao_written w /\
      keithley_written w' =
        if PYVISA_AVAILABLE env && Device.keithley (device_controller w)
        then SOUR_CURR (current / 1000) :: SOUR_VOLT voltage
             :: keithley_written w
        else keithley_written w
  | Raise e =>
      head (logged w') = Some (ErrorSettingOutputs e) /\
      match e with
      | VisaIOError =>
          ao_written w' = scaled :: ao_written w /\
          (keithley_written w' = keithley_written w \/
           keithley_written w' = SOUR_VOLT voltage :: keithley_written w)
      | _ =>
          ao_written w' = ao_written w /\
          keithley_written w' = keithley_written w
      end
  end.
Proof.
  unfold DeviceController.set_outputs, DAQController.set_outputs,
    DAQController.ao_task_write, DeviceController.keithley_write.
  run. repeat case_cond; auto.
Qed.

(** ** Storing and applying limits *)




(** ** After a stop *)

(** X7: once [stop_process] has returned, the controller is at rest: a
    call of [update_stage] and every timer callback return at once, with
    no instrument read or written, no clock reading and no attribute
    changed, whatever their arguments and whatever the instruments would
    answer. *)
Theorem stopped_controller_is_at_rest env w :
  let w' := (DeviceController.stop_process env w).2 in
  (forall dwell_time hold_current current_limit hold_time target_temperature
          env',
     DeviceController.update_stage dwell_time hold_current current_limit
       hold_time target_temperature env' w' = (Ok tt, w')) /\
  (forall cb env', MainController.call cb env' w' = (Ok tt, w')).
Proof.
  pose proof (stop_process_spec env w) as H.
  destruct (DeviceController.stop_process env w) as [r w'].
  destruct H as (_ & Hd & _). cbn.
  assert (Hrun : Device.is_running (device_controller w') = false)
    by (rewrite Hd; reflexivity).
  split.
  - intros. unfold DeviceController.update_stage. run. rewrite Hrun.
    reflexivity.
  - intros [] env'; cbn [MainController.call];
      unfold MainController.control_timer_callback,
        MainController.data_timer_callback,
        MainController.display_timer_callback,
        MainController.temperature_timer_callback;
      run; rewrite Hrun; reflexivity.
Qed.

(** ** The order of floats *)

(** Comparing the other way round gives the opposite answer. *)
Lemma SFcompare_antisym x y :
  SpecFloat.SFcompare y x = option_map CompOpp (SpecFloat.SFcompare x y).
Proof.
  destruct x as [sx|sx| |sx mx ex], y as [sy|sy| |sy my ey]; cbn;
    try reflexivity;
    try (destruct sx; reflexivity); try (destruct sy; reflexivity);
    try (destruct sx, sy; reflexivity).
  change (IntDef.Z.compare ey ex) with (Z.compare ey ex).
  change (IntDef.Z.compare ex ey) with (Z.compare ex ey).
  change (PosDef.Pos.compare_cont Eq my mx) with (Pos.compare my mx).
  change (PosDef.Pos.compare_cont Eq mx my) with (Pos.compare mx my).
  rewrite (Z.compare_antisym ey ex), (Pos.compare_antisym my mx).
  destruct sx, sy; cbn; try reflexivity;
    destruct (Z.compare ey ex); cbn; try reflexivity;
    destruct (Pos.compare my mx); reflexivity.
Qed.

(** Numbers that compare equal compare alike with any third one. *)
Lemma SFcompare_eq_r x y z :
  SpecFloat.SFcompare y z = Some Eq ->
  SpecFloat.SFcompare x y = SpecFloat.SFcompare x z.
Proof.
  destruct y as [sy|sy| |sy my ey], z as [sz|sz| |sz mz ez]; cbn;
    try discriminate;
    try (destruct sy; discriminate); try (destruct sz; discriminate);
    try (destruct sy, sz; discriminate).
  - intros _. destruct x; reflexivity.
  - destruct sy, sz; try discriminate; reflexivity.
  - change (IntDef.Z.compare ey ez) with (Z.compare ey ez).
    change (PosDef.Pos.compare_cont Eq my mz) with (Pos.compare my mz).
    destruct sy, sz; try discriminate;
      destruct (Z.compare ey ez) eqn:He; try discriminate;
      destruct (Pos.compare my mz) eqn:Hm; try discriminate;
      apply Z.compare_eq in He; apply Pos.compare_eq in Hm; subst; reflexivity.
Qed.

(** A number compared with itself is equal to itself, or is not a number. *)
Lemma SFcompare_refl x :
  SpecFloat.SFcompare x x = Some Eq \/ SpecFloat.SFcompare x x = None.
Proof.
  destruct x as [s|s| |s m e]; cbn; auto.
  - destruct s; auto.
  - change (IntDef.Z.compare e e) with (Z.compare e e).
    change (PosDef.Pos.compare_cont Eq m m) with (Pos.compare m m).
    rewrite Z.compare_refl, Pos.compare_refl. destruct s; auto.
Qed.

(** A number that compares with another one is a number. *)
Lemma SFcompare_defined x y c :
  SpecFloat.SFcompare x y = Some c ->
  SpecFloat.SFcompare x x = Some Eq /\ SpecFloat.SFcompare y y = Some Eq.
Proof.
  intros H.
  destruct (SFcompare_refl x) as [Hx|Hx], (SFcompare_refl y) as [Hy|Hy];
    auto; exfalso;
    destruct x as [?|?| |? ? ?], y as [?|?| |? ? ?]; cbn in *;
    try discriminate;
    repeat match goal with b : bool |- _ => destruct b end; discriminate.
Qed.

(** Python's comparisons, through the specification of floats. *)
Lemma py_compare a b :
  let c := SpecFloat.SFcompare (Prim2SF a) (Prim2SF b) in
  lt a b = match c with Some Lt => true | _ => false end /\
  le a b = match c with Some Lt | Some Eq => true | _ => false end /\
  gt a b = match c with Some Gt => true | _ => false end /\
  ge a b = match c with Some Gt | Some Eq => true | _ => false end /\
  PrimFloat.eqb a b = match c with Some Eq => true | _ => false end.
Proof.
  unfold lt, le, gt, ge.
  rewrite !FloatAxioms.ltb_spec, !FloatAxioms.leb_spec, FloatAxioms.eqb_spec.
  unfold SpecFloat.SFltb, SpecFloat.SFleb, SpecFloat.SFeqb.
  rewrite (SFcompare_antisym (Prim2SF a) (Prim2SF b)).
  cbn. destruct (SpecFloat.SFcompare (Prim2SF a) (Prim2SF b)) as [[]|];
    repeat split; reflexivity.
Qed.

Lemma lt_le a b : lt a b = true -> le a b = true.
Proof.
  destruct (py_compare a b) as (-> & -> & _).
  destruct (SpecFloat.SFcompare _ _) as [[]|]; auto.
Qed.

Lemma lt_irrefl a : lt a a = false.
Proof.
  destruct (py_compare a a) as (-> & _).
  destruct (SFcompare_refl (Prim2SF a)) as [->| ->]; reflexivity.
Qed.

Lemma le_defined a b : le a b = true -> le a a = true /\ le b b = true.
Proof.
  destruct (py_compare a b) as (_ & -> & _).
  destruct (py_compare a a) as (_ & -> & _).
  destruct (py_compare b b) as (_ & -> & _).
  destruct (SpecFloat.SFcompare (Prim2SF a) (Prim2SF b)) as [c|] eqn:Hc;
    [|discriminate].
  destruct (SFcompare_defined _ _ _ Hc) as [-> ->]. auto.
Qed.

Lemma le_not_lt a b :
  le a b = true -> lt a b = false -> PrimFloat.eqb a b = true.
Proof.
  destruct (py_compare a b) as (-> & -> & _ & _ & ->).
  destruct (SpecFloat.SFcompare _ _) as [[]|]; auto.
Qed.

Lemma eqb_sym a b : PrimFloat.eqb a b = true -> PrimFloat.eqb b a = true.
Proof.
  destruct (py_compare a b) as (_ & _ & _ & _ & ->).
  destruct (py_compare b a) as (_ & _ & _ & _ & ->).
  rewrite (SFcompare_antisym (Prim2SF a) (Prim2SF b)).
  destruct (SpecFloat.SFcompare _ _) as [[]|]; auto.
Qed.

Lemma lt_eqb_r a b c : PrimFloat.eqb b c = true -> lt a b = lt a c.
Proof.
  destruct (py_compare b c) as (_ & _ & _ & _ & ->).
  destruct (py_compare a b) as (-> & _).
  destruct (py_compare a c) as (-> & _).
  intros H. rewrite (SFcompare_eq_r (Prim2SF a) (Prim2SF b) (Prim2SF c));
    [reflexivity|].
  destruct (SpecFloat.SFcompare (Prim2SF b) (Prim2SF c)) as [[]|];
    try discriminate; reflexivity.
Qed.

(** ** Clipping ([helpers.clip_value]) *)

(** X8: with bounds in order, [clip_value] answers a number within the
    bounds, whatever the value, a value that is not a number included (it
    is clipped to a bound). *)
Theorem clip_value_within_bounds value min_val max_val :
  le min_val max_val = true ->
  le min_val (Helpers.clip_value value min_val max_val) = true /\
  le (Helpers.clip_value value min_val max_val) max_val = true.
Proof.
  intros H. destruct (le_defined _ _ H) as [Hmin Hmax].
  unfold Helpers.clip_value, Helpers.py_max, Helpers.py_min.
  destruct (lt value max_val) eqn:H1.
  - destruct (gt value min_val) eqn:H2.
    + split; [apply lt_le; exact H2|apply lt_le; exact H1].
    + split; assumption.
  - destruct (gt max_val min_val); split; assumption.
Qed.

Lemma clip_value_within_bounds_witness :
  le 0 (Helpers.clip_value 350 0 300) = true /\
  le (Helpers.clip_value 350 0 300) 300 = true.
Proof. exact (clip_value_within_bounds 350 0 300 eq_refl). Defined.

(** X9: [clip_value] leaves a value that is within the bounds as it is
    (up to the sign of a zero: the answer is [==] to the value), and
    clipping twice is clipping once, for any bounds. *)
Theorem clip_value_fixes_the_range value min_val max_val :
  (le min_val value = true -> le value max_val = true ->
   PrimFloat.eqb (Helpers.clip_value value min_val max_val) value = true) /\
  Helpers.clip_value (Helpers.clip_value value min_val max_val)
    min_val max_val =
  Helpers.clip_value value min_val max_val.
Proof.
  unfold Helpers.clip_value, Helpers.py_max, Helpers.py_min. split.
  - intros Hlo Hhi.
    destruct (le_defined _ _ Hlo) as [_ Hv].
    destruct (lt value max_val) eqn:H1.
    + destruct (gt value min_val) eqn:H2.
      * apply le_not_lt; [exact Hv|apply lt_irrefl].
      * apply le_not_lt; assumption.
    + pose proof (le_not_lt _ _ Hhi H1) as He.
      destruct (gt max_val min_val) eqn:H2.
      * apply eqb_sym. exact He.
      * apply le_not_lt; [exact Hlo|].
        rewrite (lt_eqb_r min_val value max_val He). exact H2.
  - destruct (lt value max_val) eqn:H1.
    + destruct (gt value min_val) eqn:H2.
      * rewrite H1, H2. reflexivity.
      * destruct (lt min_val max_val) eqn:H3.
        -- change (gt min_val min_val) with (lt min_val min_val).
           rewrite lt_irrefl. reflexivity.
        -- change (gt max_val min_val) with (lt min_val max_val).
           rewrite H3. reflexivity.
    + destruct (gt max_val min_val) eqn:H2.
      * rewrite lt_irrefl, H2. reflexivity.
      * change (lt min_val max_val) with (gt max_val min_val).
        rewrite H2, H2. reflexivity.
Qed.
